(** * Blogsite-Platform: the content lifecycle and interaction model

    A shallow embedding of [src/blog/models.py] and of the interaction views of
    [src/blog/views.py], with the properties of the repository's specification
    stated and settled against that embedding.

    Conventions.
    - A Python [str] is a [string]; one character of the model is one code
      point below 256.  Python's [len] is [String.length].
    - A Python [int] is a [Z]; a [DateTimeField] value is a [Z] (a point on
      the time line), [None] is [option]'s [None].
    - A database table is a [gmap] from primary keys to rows, with the
      sequence that hands out the next primary key beside it.
    - [timezone.now()] reads a clock: the world carries the sequence of the
      clock's readings and the number of readings taken so far.
    - A view is a computation in the monad [M]: it threads the world and
      either returns or raises.  What was written before an exception stays
      written (each statement commits on its own, Django's default). *)

From stdpp Require Import base option list gmap strings sorting.
From Stdlib Require Import ZArith Lia Ascii String.

Local Open Scope Z_scope.

(** ** Python text primitives used by the source *)

Module Py.

(** [str.isspace] on one character, as [str.split()] and [str.strip()] use
    it: the code points 9-13, 28-32, 133 and 160. *)
Definition isspace (c : ascii) : bool :=
  let n := N_of_ascii c in
  ((9 <=? n) && (n <=? 13) || (28 <=? n) && (n <=? 32)
   || (n =? 133) || (n =? 160))%N.

(** [s.split()]: the maximal runs of non-space characters of [s], in order.
    [cur] is the run being read. *)
Fixpoint split_from (cur : string) (s : string) : list string :=
  match s with
  | EmptyString => if decide (cur = EmptyString) then [] else [cur]
  | String c s' =>
      if isspace c
      then (if decide (cur = EmptyString) then split_from EmptyString s'
            else cur :: split_from EmptyString s')
      else split_from (cur +:+ String c EmptyString) s'
  end.

Definition split (s : string) : list string := split_from EmptyString s.

(** [s.lstrip()], [s.rstrip()] and [s.strip()]. *)
Fixpoint lstrip (s : string) : string :=
  match s with
  | EmptyString => EmptyString
  | String c s' => if isspace c then lstrip s' else s
  end.

Fixpoint rstrip (s : string) : string :=
  match s with
  | EmptyString => EmptyString
  | String c s' =>
      match rstrip s' with
      | EmptyString => if isspace c then EmptyString else String c EmptyString
      | r => String c r
      end
  end.

Definition strip (s : string) : string := rstrip (lstrip s).

(** The slice [s[:n]]. *)
Definition slice_to (n : nat) (s : string) : string := substring 0 n s.

(** [len(s)] as a Python integer. *)
Definition len (s : string) : Z := Z.of_nat (String.length s).

(** [round(n / d)] for integers [0 <= n] and [0 < d]: the true division is
    rounded to the nearest integer, a tie going to the even neighbour.  The
    quotient [n / d] of two integers is a tie exactly when [2 * (n mod d) = d],
    and a [float] holds every such tie exactly for the magnitudes a text
    can reach, so the integer computation below is the float one. *)
Definition round_div (n d : Z) : Z :=
  let q := n / d in
  let r := n mod d in
  if 2 * r <? d then q
  else if d <? 2 * r then q + 1
  else if Z.even q then q else q + 1.

(** Truth value of a string: [""] is false. *)
Definition truthy (s : string) : bool := negb (String.eqb s EmptyString).

(** [not o] for a value that is [None] or a datetime (which is never false). *)
Definition is_none {A} (o : option A) : bool :=
  match o with None => true | Some _ => false end.

End Py.

Arguments Py.truthy : simpl never.
Arguments Py.round_div : simpl never.
Arguments Py.split : simpl never.
Arguments Py.strip : simpl never.

(** ** The data model ([src/blog/models.py]) *)

(** The user of a request: [AnonymousUser] has [is_authenticated = False],
    a [User] row has [is_authenticated = True]. *)
Inductive RequestUser :=
  | AnonymousUser
  | AuthUser (uid : Z).

Definition is_authenticated (u : RequestUser) : bool :=
  match u with AnonymousUser => false | AuthUser _ => true end.

(** [class Post(TimeStampedModel)].  [tags] is a many-to-many manager with a
    table of its own and is no column of the post's row. *)
Record Post := mkPost {
  post_id        : option Z;
  title          : string;
  slug           : string;
  author         : Z;
  content        : string;
  excerpt        : string;
  featured_image : option string;
  status         : string;
  published_at   : option Z;
  view_count     : Z;
  reading_time   : Z;
  is_featured    : bool;
  created_at     : option Z;
  updated_at     : option Z
}.

(** The columns of a post besides the primary key. *)
Inductive Field :=
  | F_title | F_slug | F_author | F_content | F_excerpt | F_featured_image
  | F_status | F_published_at | F_view_count | F_reading_time | F_is_featured
  | F_created_at | F_updated_at.

Global Instance Field_eq_dec : EqDecision Field.
Proof. solve_decision. Defined.

Definition set_post_id (v : option Z) (p : Post) : Post :=
  mkPost v (title p) (slug p) (author p) (content p) (excerpt p)
    (featured_image p) (status p) (published_at p) (view_count p)
    (reading_time p) (is_featured p) (created_at p) (updated_at p).
Definition set_slug (v : string) (p : Post) : Post :=
  mkPost (post_id p) (title p) v (author p) (content p) (excerpt p)
    (featured_image p) (status p) (published_at p) (view_count p)
    (reading_time p) (is_featured p) (created_at p) (updated_at p).
Definition set_content (v : string) (p : Post) : Post :=
  mkPost (post_id p) (title p) (slug p) (author p) v (excerpt p)
    (featured_image p) (status p) (published_at p) (view_count p)
    (reading_time p) (is_featured p) (created_at p) (updated_at p).
Definition set_excerpt (v : string) (p : Post) : Post :=
  mkPost (post_id p) (title p) (slug p) (author p) (content p) v
    (featured_image p) (status p) (published_at p) (view_count p)
    (reading_time p) (is_featured p) (created_at p) (updated_at p).
Definition set_status (v : string) (p : Post) : Post :=
  mkPost (post_id p) (title p) (slug p) (author p) (content p) (excerpt p)
    (featured_image p) v (published_at p) (view_count p)
    (reading_time p) (is_featured p) (created_at p) (updated_at p).
Definition set_published_at (v : option Z) (p : Post) : Post :=
  mkPost (post_id p) (title p) (slug p) (author p) (content p) (excerpt p)
    (featured_image p) (status p) v (view_count p)
    (reading_time p) (is_featured p) (created_at p) (updated_at p).
Definition set_view_count (v : Z) (p : Post) : Post :=
  mkPost (post_id p) (title p) (slug p) (author p) (content p) (excerpt p)
    (featured_image p) (status p) (published_at p) v
    (reading_time p) (is_featured p) (created_at p) (updated_at p).
Definition set_reading_time (v : Z) (p : Post) : Post :=
  mkPost (post_id p) (title p) (slug p) (author p) (content p) (excerpt p)
    (featured_image p) (status p) (published_at p) (view_count p)
    v (is_featured p) (created_at p) (updated_at p).
Definition set_created_at (v : option Z) (p : Post) : Post :=
  mkPost (post_id p) (title p) (slug p) (author p) (content p) (excerpt p)
    (featured_image p) (status p) (published_at p) (view_count p)
    (reading_time p) (is_featured p) v (updated_at p).
Definition set_updated_at (v : option Z) (p : Post) : Post :=
  mkPost (post_id p) (title p) (slug p) (author p) (content p) (excerpt p)
    (featured_image p) (status p) (published_at p) (view_count p)
    (reading_time p) (is_featured p) (created_at p) v.

(** [copy_field f src dst]: [dst] with its column [f] taken from [src]; what
    an [UPDATE ... SET f = ...] does to the stored row [dst]. *)
Definition copy_field (f : Field) (src dst : Post) : Post :=
  match f with
  | F_title =>
      mkPost (post_id dst) (title src) (slug dst) (author dst) (content dst)
        (excerpt dst) (featured_image dst) (status dst) (published_at dst)
        (view_count dst) (reading_time dst) (is_featured dst) (created_at dst)
        (updated_at dst)
  | F_slug => set_slug (slug src) dst
  | F_author =>
      mkPost (post_id dst) (title dst) (slug dst) (author src) (content dst)
        (excerpt dst) (featured_image dst) (status dst) (published_at dst)
        (view_count dst) (reading_time dst) (is_featured dst) (created_at dst)
        (updated_at dst)
  | F_content => set_content (content src) dst
  | F_excerpt => set_excerpt (excerpt src) dst
  | F_featured_image =>
      mkPost (post_id dst) (title dst) (slug dst) (author dst) (content dst)
        (excerpt dst) (featured_image src) (status dst) (published_at dst)
        (view_count dst) (reading_time dst) (is_featured dst) (created_at dst)
        (updated_at dst)
  | F_status => set_status (status src) dst
  | F_published_at => set_published_at (published_at src) dst
  | F_view_count => set_view_count (view_count src) dst
  | F_reading_time => set_reading_time (reading_time src) dst
  | F_is_featured =>
      mkPost (post_id dst) (title dst) (slug dst) (author dst) (content dst)
        (excerpt dst) (featured_image dst) (status dst) (published_at dst)
        (view_count dst) (reading_time dst) (is_featured src) (created_at dst)
        (updated_at dst)
  | F_created_at => set_created_at (created_at src) dst
  | F_updated_at => set_updated_at (updated_at src) dst
  end.

(** [class Comment(TimeStampedModel)].  A stored comment is a pair of its
    primary key and this row. *)
Record Comment := mkComment {
  comment_post    : Z;
  comment_user    : Z;
  comment_content : string;
  parent          : option Z;
  is_approved     : bool;
  comment_created_at : Z;
  comment_updated_at : Z
}.

(** [class Like(models.Model)], [unique_together = ("post", "user")].  A
    stored like is a pair of its primary key and this row. *)
Record Like := mkLike {
  like_user_id : Z;
  like_post_id : Z;
  like_created_at : Z
}.

(** ** The world: the tables and the clock *)

Record World := mkWorld {
  posts       : gmap Z Post;
  post_seq    : Z;
  comments    : gmap Z Comment;
  comment_seq : Z;
  likes       : gmap Z Like;
  like_seq    : Z;
  clock       : nat -> Z;
  reads       : nat
}.

Definition with_posts (t : gmap Z Post) (w : World) : World :=
  mkWorld t (post_seq w) (comments w) (comment_seq w) (likes w) (like_seq w)
    (clock w) (reads w).
Definition with_post_seq (n : Z) (w : World) : World :=
  mkWorld (posts w) n (comments w) (comment_seq w) (likes w) (like_seq w)
    (clock w) (reads w).
Definition with_comments (t : gmap Z Comment) (w : World) : World :=
  mkWorld (posts w) (post_seq w) t (comment_seq w) (likes w) (like_seq w)
    (clock w) (reads w).
Definition with_comment_seq (n : Z) (w : World) : World :=
  mkWorld (posts w) (post_seq w) (comments w) n (likes w) (like_seq w)
    (clock w) (reads w).
Definition with_likes (t : gmap Z Like) (w : World) : World :=
  mkWorld (posts w) (post_seq w) (comments w) (comment_seq w) t (like_seq w)
    (clock w) (reads w).
Definition with_like_seq (n : Z) (w : World) : World :=
  mkWorld (posts w) (post_seq w) (comments w) (comment_seq w) (likes w) n
    (clock w) (reads w).
Definition with_reads (n : nat) (w : World) : World :=
  mkWorld (posts w) (post_seq w) (comments w) (comment_seq w) (likes w)
    (like_seq w) (clock w) n.

(** The exceptions the modelled code can raise. *)
Inductive Exc :=
  | Http404
  | ValueError
  | DatabaseError
  | IntegrityError
  | MultipleObjectsReturned.

Inductive Outcome (A : Type) :=
  | Ok (a : A)
  | Raise (e : Exc).
Arguments Ok {A} a.
Arguments Raise {A} e.

Definition M (A : Type) : Type := World -> Outcome A * World.

Definition ret {A} (a : A) : M A := fun w => (Ok a, w).
Definition raise {A} (e : Exc) : M A := fun w => (Raise e, w).
Definition bind {A B} (m : M A) (k : A -> M B) : M B :=
  fun w => match m w with
           | (Ok a, w') => k a w'
           | (Raise e, w') => (Raise e, w')
           end.

Notation "x <- m ;; k" := (bind m (fun x => k))
  (at level 100, m at next level, right associativity).
Notation "m ;;; k" := (bind m (fun _ => k))
  (at level 100, right associativity).

(** [timezone.now()]: the next reading of the clock. *)
Definition now : M Z :=
  fun w => (Ok (clock w (reads w)), with_reads (S (reads w)) w).

(** The clock never runs backwards. *)
Definition monotone (c : nat -> Z) : Prop := forall i j : nat, (i <= j)%nat -> c i <= c j.

Definition get_world : M World := fun w => (Ok w, w).
Definition put_posts (t : gmap Z Post) : M unit := fun w => (Ok tt, with_posts t w).

(** ** Django's [Model.save] for the [Post] table

    The part of [django.db.models.Model.save] that [Post.save] reaches through
    the call of the parent class's [save], written for the [Post] columns. *)

Definition all_fields : list Field :=
  [F_title; F_slug; F_author; F_content; F_excerpt; F_featured_image;
   F_status; F_published_at; F_view_count; F_reading_time; F_is_featured;
   F_created_at; F_updated_at].

(** [slug = models.SlugField(unique=True, ...)]: no other row holds the slug. *)
Definition slug_free (k : Z) (s : string) (t : gmap Z Post) : Prop :=
  map_Forall (fun k' row => k' = k \/ slug row <> s) t.

(** The column constraints a row must meet to be written: the two timestamps
    are [NOT NULL] and the two [PositiveIntegerField]s are checked [>= 0]. *)
Definition row_ok (row : Post) : Prop :=
  is_Some (created_at row) /\ is_Some (updated_at row) /\
  0 <= view_count row /\ 0 <= reading_time row.

Global Instance row_ok_dec row : Decision (row_ok row).
Proof. unfold row_ok. apply _. Defined.

(** [UPDATE blog_post SET fs = self.fs WHERE id = k] on the stored [row]: the
    columns [fs] are taken from the instance, the others stay, and the row
    keeps its key as its [id]. *)
Definition write_fields (fs : list Field) (self row : Post) : Post :=
  foldr (fun f r => copy_field f self r) row fs.

Definition do_update (k : Z) (fs : list Field) (self row : Post) : M unit :=
  let row' := set_post_id (Some k) (write_fields fs self row) in
  w <- get_world ;;
  if decide (row_ok row' /\ (F_slug ∈ fs -> slug_free k (slug row') (posts w)))
  then put_posts (<[k := row']> (posts w))
  else raise IntegrityError.

(** [INSERT INTO blog_post ...] of the instance under the key [k]. *)
Definition do_insert (k : Z) (self : Post) : M unit :=
  w <- get_world ;;
  if decide (posts w !! k = None /\ row_ok self /\ slug_free k (slug self) (posts w))
  then put_posts (<[k := set_post_id (Some k) self]> (posts w))
  else raise IntegrityError.

(** The next value of the table's primary-key sequence. *)
Definition next_post_id : M Z :=
  fun w => (Ok (post_seq w), with_post_seq (post_seq w + 1) w).

(** [pre_save] of the two [TimeStampedModel] columns: [auto_now_add] stamps
    [created_at] when the row is added, [auto_now] stamps [updated_at]
    whenever the column is written. *)
Definition pre_save_created_at (add : bool) (self : Post) : M Post :=
  if add then (t <- now ;; ret (set_created_at (Some t) self)) else ret self.
Definition pre_save_updated_at (self : Post) : M Post :=
  t <- now ;; ret (set_updated_at (Some t) self).

Definition insert_new (k : option Z) (self : Post) : M Post :=
  self <- pre_save_created_at true self ;;
  self <- pre_save_updated_at self ;;
  match k with
  | Some k => do_insert k self ;;; ret self
  | None =>
      k <- next_post_id ;;
      let self := set_post_id (Some k) self in
      do_insert k self ;;; ret self
  end.

Definition Model_save (update_fields : option (list Field)) (self : Post) : M Post :=
  match update_fields with
  | Some [] => ret self
  | Some fs =>
      match post_id self with
      | None => raise ValueError
      | Some k =>
          self <- (if decide (F_updated_at ∈ fs) then pre_save_updated_at self
                   else ret self) ;;
          w <- get_world ;;
          match posts w !! k with
          | Some row => do_update k fs self row ;;; ret self
          | None => raise DatabaseError
          end
      end
  | None =>
      match post_id self with
      | None => insert_new None self
      | Some k =>
          self' <- pre_save_updated_at self ;;
          w <- get_world ;;
          match posts w !! k with
          | Some row => do_update k all_fields self' row ;;; ret self'
          | None => insert_new (Some k) self'
          end
      end
  end.

(** ** [Post.save] and the methods of [Post] *)

Section PostLifecycle.

(** [django.utils.html.strip_tags] and [django.utils.text.slugify], the two
    pure text functions the model imports. *)
Variable strip_tags : string -> string.
Variable slugify : string -> string.

(** [max(1, round(word_count / 200))] for the words of the stripped text. *)
Definition reading_time_of (text : string) : Z :=
  let word_count := Z.of_nat (List.length (Py.split (strip_tags text))) in
  Z.max 1 (Py.round_div word_count 200).

(** [strip_tags(self.content)[:297] + "..."]. *)
Definition excerpt_of (text : string) : string :=
  Py.slice_to 297 (strip_tags text) +:+ "...".

(** The body of [Post.save] above its [super().save(...)] call: the four
    [if] statements, in the order of the source. *)
Definition Post_save_derive (self : Post) : M Post :=
  let self :=
    if negb (Py.truthy (slug self)) then set_slug (slugify (title self)) self
    else self in
  let self :=
    if negb (Py.truthy (excerpt self)) && Py.truthy (content self)
    then set_excerpt (excerpt_of (content self)) self
    else self in
  let self :=
    if Py.truthy (content self)
    then set_reading_time (reading_time_of (content self)) self
    else self in
  if String.eqb (status self) "published" && Py.is_none (published_at self)
  then (t <- now ;; ret (set_published_at (Some t) self))
  else ret self.

(** [def save(self, ...)] of [Post]. *)
Definition Post_save (update_fields : option (list Field)) (self : Post) : M Post :=
  self <- Post_save_derive self ;;
  Model_save update_fields self.

(** [def increment_view_count(self)]. *)
Definition increment_view_count (self : Post) : M Post :=
  let self := set_view_count (view_count self + 1) self in
  Post_save (Some [F_view_count]) self.

End PostLifecycle.

(** [def get_like_count(self)]: [self.like_set.count()]. *)
Definition likes_of_post (k : Z) (t : gmap Z Like) : gmap Z Like :=
  filter (fun kv => like_post_id kv.2 = k) t.

Definition get_like_count (k : Z) (w : World) : Z :=
  Z.of_nat (size (likes_of_post k (likes w))).

(** [def user_has_liked(self, user)]. *)
Definition user_has_liked (k : Z) (user : RequestUser) (w : World) : bool :=
  match user with
  | AuthUser u =>
      bool_decide (map_Exists (fun _ l => like_post_id l = k /\ like_user_id l = u) (likes w))
  | AnonymousUser => false
  end.

(** ** Queries *)

(** The rows of the post table as model instances: an instance read from the
    table carries the key of its row as its [id]. *)
Definition load_post (kr : Z * Post) : Post := set_post_id (Some kr.1) kr.2.

Definition post_rows (t : gmap Z Post) : list Post := load_post <$> map_to_list t.

(** [QuerySet.get()]: the one row of the query. *)
Inductive GetResult (A : Type) :=
  | Found (a : A)
  | DoesNotExist
  | Multiple.
Arguments Found {A} a.
Arguments DoesNotExist {A}.
Arguments Multiple {A}.

Definition queryset_get {A} (rows : list A) : GetResult A :=
  match rows with
  | [] => DoesNotExist
  | [a] => Found a
  | _ => Multiple
  end.

(** [get_object_or_404] and [DetailView.get_object]: [DoesNotExist] becomes
    [Http404]. *)
Definition get_or_404 {A} (rows : list A) : M A :=
  match queryset_get rows with
  | Found a => ret a
  | DoesNotExist => raise Http404
  | Multiple => raise MultipleObjectsReturned
  end.

Definition has_slug (s : string) (p : Post) : Prop := slug p = s.

Global Instance has_slug_dec s p : Decision (has_slug s p).
Proof. unfold has_slug. apply _. Defined.

(** [get_object_or_404(Post, slug=slug)]. *)
Definition get_post_or_404 (s : string) : M Post :=
  w <- get_world ;;
  get_or_404 (filter (has_slug s) (post_rows (posts w))).

(** ** The comment thread ([Comment], [PostDetailView.get_context_data]) *)

(** [order_by("-created_at")] and the model's [ordering = ["created_at"]]. *)
Definition newest_first (a b : Z * Comment) : Prop :=
  comment_created_at b.2 <= comment_created_at a.2.
Definition oldest_first (a b : Z * Comment) : Prop :=
  comment_created_at a.2 <= comment_created_at b.2.

Global Instance newest_first_dec a b : Decision (newest_first a b).
Proof. unfold newest_first. apply _. Defined.
Global Instance oldest_first_dec a b : Decision (oldest_first a b).
Proof. unfold oldest_first. apply _. Defined.

(** The filter [parent__isnull=True, is_approved=True] on [post.comments]. *)
Definition top_level_approved (post_k : Z) (kc : Z * Comment) : Prop :=
  comment_post kc.2 = post_k /\ parent kc.2 = None /\ is_approved kc.2 = true.

Global Instance top_level_approved_dec k kc : Decision (top_level_approved k kc).
Proof. unfold top_level_approved. apply _. Defined.

(** [context["comments"]] of the detail view.  Among comments created at the
    same instant the database is free to choose the order; the sort here is
    one such choice, and the properties below hold of any. *)
Definition thread_view (post_k : Z) (w : World) : list (Z * Comment) :=
  merge_sort newest_first
    (filter (top_level_approved post_k) (map_to_list (comments w))).

(** The filter [is_approved=True] on [self.replies]. *)
Definition approved_reply_of (comment_k : Z) (kc : Z * Comment) : Prop :=
  parent kc.2 = Some comment_k /\ is_approved kc.2 = true.

Global Instance approved_reply_of_dec k kc : Decision (approved_reply_of k kc).
Proof. unfold approved_reply_of. apply _. Defined.

(** [def get_replies(self)], in the model's default ordering. *)
Definition get_replies (comment_k : Z) (w : World) : list (Z * Comment) :=
  merge_sort oldest_first
    (filter (approved_reply_of comment_k) (map_to_list (comments w))).

(** ** The detail view ([PostDetailView]) *)

(** The filter of [get_queryset]:
    [Q(status="published") | Q(author=user, status="draft")] for an
    authenticated user, [status="published"] otherwise. *)
Definition detail_visible (user : RequestUser) (p : Post) : bool :=
  match user with
  | AuthUser u =>
      String.eqb (status p) "published"
      || (bool_decide (author p = u) && String.eqb (status p) "draft")
  | AnonymousUser => String.eqb (status p) "published"
  end.

Definition PostDetailView_get_queryset (user : RequestUser) (w : World) : list Post :=
  filter (fun p => detail_visible user p = true) (post_rows (posts w)).

(** [DetailView.get_object]: the post of the queryset with the slug of the URL. *)
Definition PostDetailView_get_object (user : RequestUser) (s : string) : M Post :=
  w <- get_world ;;
  get_or_404 (filter (has_slug s) (PostDetailView_get_queryset user w)).

(** The primary key of an instance read from the table. *)
Definition pk (p : Post) : Z := default 0 (post_id p).

(** The template context, less [related_posts] and [form] (a query over the
    tag tables and an empty form; neither writes). *)
Record Context := mkContext {
  ctx_object         : Post;
  ctx_comments       : list (Z * Comment);
  ctx_user_has_liked : bool;
  ctx_is_draft       : bool;
  ctx_is_published   : bool
}.

Section Views.

Variable strip_tags : string -> string.
Variable slugify : string -> string.

Definition PostDetailView_get_context_data (user : RequestUser) (post : Post) : M Context :=
  post <- (if String.eqb (status post) "published"
           then increment_view_count strip_tags slugify post
           else ret post) ;;
  w <- get_world ;;
  ret (mkContext post
         (thread_view (pk post) w)
         (if is_authenticated user then user_has_liked (pk post) user w else false)
         (String.eqb (status post) "draft")
         (String.eqb (status post) "published")).

(** A [GET] of the detail page. *)
Definition PostDetailView_get (user : RequestUser) (s : string) : M Context :=
  post <- PostDetailView_get_object user s ;;
  PostDetailView_get_context_data user post.

End Views.

(** ** Likes ([like_post], [ajax_like_post]) *)

Definition like_of (post_k user_k : Z) (kl : Z * Like) : Prop :=
  like_post_id kl.2 = post_k /\ like_user_id kl.2 = user_k.

Global Instance like_of_dec p u kl : Decision (like_of p u kl).
Proof. unfold like_of. apply _. Defined.

Definition put_likes (t : gmap Z Like) : M unit := fun w => (Ok tt, with_likes t w).

Definition next_like_id : M Z :=
  fun w => (Ok (like_seq w), with_like_seq (like_seq w + 1) w).

(** [unique_together = ("post", "user")]: no stored like is of this pair. *)
Definition pair_free (post_k user_k : Z) (t : gmap Z Like) : Prop :=
  map_Forall (fun k l => ~ like_of post_k user_k (k, l)) t.

(** [Like.objects.create(post=post, user=user)]: [created_at] takes its
    default [timezone.now], the row its key from the sequence. *)
Definition Like_create (post_k user_k : Z) : M (Z * Like) :=
  t <- now ;;
  k <- next_like_id ;;
  w <- get_world ;;
  let l := mkLike user_k post_k t in
  if decide (likes w !! k = None /\ pair_free post_k user_k (likes w))
  then put_likes (<[k := l]> (likes w)) ;;; ret (k, l)
  else raise IntegrityError.

(** [Like.objects.get_or_create(post=post, user=user)]. *)
Definition Like_get_or_create (post_k user_k : Z) : M (Z * Like * bool) :=
  w <- get_world ;;
  match queryset_get (filter (like_of post_k user_k) (map_to_list (likes w))) with
  | Found kl => ret (kl, false)
  | DoesNotExist => kl <- Like_create post_k user_k ;; ret (kl, true)
  | Multiple => raise MultipleObjectsReturned
  end.

(** [like.delete()]. *)
Definition Like_delete (k : Z) : M unit :=
  w <- get_world ;; put_likes (delete k (likes w)).

(** The flash messages of the views, by the text after the emoji:
    "Post liked!", "Post unliked!" ("Post liked" and "Post unliked" in the
    JSON answer), "Comment added successfully!" and
    "Error adding comment. Please try again.". *)
Inductive Message :=
  | Msg_post_liked
  | Msg_post_unliked
  | Msg_comment_added
  | Msg_comment_error.

Inductive Response :=
  | RedirectLogin
  | MethodNotAllowed
  | RedirectDetail (s : string) (msg : option Message)
  | JsonLike (liked : bool) (like_count : Z) (msg : Message).

(** [@login_required def like_post(request, slug)]. *)
Definition like_post (user : RequestUser) (s : string) : M Response :=
  match user with
  | AnonymousUser => ret RedirectLogin
  | AuthUser u =>
      post <- get_post_or_404 s ;;
      r <- Like_get_or_create (pk post) u ;;
      let '(like, created) := r in
      if negb created
      then Like_delete like.1 ;;; ret (RedirectDetail (slug post) (Some Msg_post_unliked))
      else ret (RedirectDetail (slug post) (Some Msg_post_liked))
  end.

(** [@require_POST @login_required def ajax_like_post(request, slug)]. *)
Definition ajax_like_post (method : string) (user : RequestUser) (s : string) : M Response :=
  if negb (String.eqb method "POST") then ret MethodNotAllowed
  else
    match user with
    | AnonymousUser => ret RedirectLogin
    | AuthUser u =>
        post <- get_post_or_404 s ;;
        r <- Like_get_or_create (pk post) u ;;
        let '(like, created) := r in
        lm <- (if negb created
               then Like_delete like.1 ;;; ret (false, Msg_post_unliked)
               else ret (true, Msg_post_liked)) ;;
        w <- get_world ;;
        ret (JsonLike lm.1 (get_like_count (pk post) w) lm.2)
    end.

(** ** Comments ([CommentForm], [add_comment]) *)

Inductive ValidationError :=
  | Err_required
  | Err_null_characters
  | Err_min_length.

Definition has_null (s : string) : bool :=
  existsb (fun c => (N_of_ascii c =? 0)%N) (list_ascii_of_string s).

(** [CommentForm(request.POST).is_valid()] on the posted [content].
    [CommentForm] is a [ModelForm] over the one field [content], a
    [TextField(validators=[MinLengthValidator(10)])]: the form field is a
    required [CharField], which strips the surrounding whitespace of the
    posted text and refuses an empty result and a null character, and the
    model's validator then refuses a text shorter than 10. *)
Definition CommentForm_clean (raw : string) : ValidationError + string :=
  let value := Py.strip raw in
  if negb (Py.truthy value) then inl Err_required
  else if has_null value then inl Err_null_characters
  else if Py.len value <? 10 then inl Err_min_length
  else inr value.

Definition CommentForm_is_valid (raw : string) : bool :=
  match CommentForm_clean raw with inr _ => true | inl _ => false end.

Definition next_comment_id : M Z :=
  fun w => (Ok (comment_seq w), with_comment_seq (comment_seq w + 1) w).

(** [comment.save()] of a new comment: an [INSERT], both timestamps stamped. *)
Definition Comment_save_new (post_k user_k : Z) (text : string) (parent_k : option Z) : M Z :=
  t1 <- now ;;
  t2 <- now ;;
  k <- next_comment_id ;;
  w <- get_world ;;
  if decide (comments w !! k = None)
  then (fun w => (Ok k, with_comments
                          (<[k := mkComment post_k user_k text parent_k true t1 t2]> (comments w)) w))
  else raise IntegrityError.

(** [get_object_or_404(Comment, id=parent_id)]. *)
Definition get_comment_or_404 (k : Z) : M (Z * Comment) :=
  w <- get_world ;;
  match comments w !! k with
  | Some c => ret (k, c)
  | None => raise Http404
  end.

(** The request of [add_comment]: [request.POST["content"]] and
    [request.POST.get("parent_id")], [None] standing for an absent or empty
    value and [Some k] for the decimal text of [k]. *)
Record CommentRequest := mkCommentRequest {
  req_user      : RequestUser;
  req_method    : string;
  req_content   : string;
  req_parent_id : option Z
}.

(** [@login_required def add_comment(request, slug)]. *)
Definition add_comment (req : CommentRequest) (s : string) : M Response :=
  match req_user req with
  | AnonymousUser => ret RedirectLogin
  | AuthUser u =>
      post <- get_post_or_404 s ;;
      if String.eqb (req_method req) "POST"
      then
        match CommentForm_clean (req_content req) with
        | inr text =>
            parent_k <- match req_parent_id req with
                        | Some k => (c <- get_comment_or_404 k ;; ret (Some c.1))
                        | None => ret None
                        end ;;
            Comment_save_new (pk post) u text parent_k ;;;
            ret (RedirectDetail (slug post) (Some Msg_comment_added))
        | inl _ => ret (RedirectDetail (slug post) (Some Msg_comment_error))
        end
      else ret (RedirectDetail (slug post) None)
  end.

(** ** The derived fields as a function *)

Section Derived.

Variable strip_tags : string -> string.
Variable slugify : string -> string.

(** The test of the last [if] of [Post.save]. *)
Definition publishes (self : Post) : bool :=
  String.eqb (status self) "published" && Py.is_none (published_at self).

(** The instance [Post_save_derive] hands to the parent's [save], given the
    reading [t] the clock would give. *)
Definition derive_fields (t : Z) (self : Post) : Post :=
  let self :=
    if negb (Py.truthy (slug self)) then set_slug (slugify (title self)) self
    else self in
  let self :=
    if negb (Py.truthy (excerpt self)) && Py.truthy (content self)
    then set_excerpt (excerpt_of strip_tags (content self)) self
    else self in
  let self :=
    if Py.truthy (content self)
    then set_reading_time (reading_time_of strip_tags (content self)) self
    else self in
  if publishes self then set_published_at (Some t) self else self.

End Derived.

(** The slug [s] names the row [k] and no other. *)
Definition slug_names (s : string) (k : Z) (row : Post) (t : gmap Z Post) : Prop :=
  t !! k = Some row /\ slug row = s /\
  forall k' row', t !! k' = Some row' -> slug row' = s -> k' = k.

(** The like table meets [unique_together = ("post", "user")]. *)
Definition likes_unique (t : gmap Z Like) : Prop :=
  forall k1 l1 k2 l2,
    t !! k1 = Some l1 -> t !! k2 = Some l2 ->
    like_post_id l1 = like_post_id l2 -> like_user_id l1 = like_user_id l2 -> k1 = k2.

(** The world after [Like.objects.create] stores a like of the pair. *)
Definition liked_world (post_k user_k : Z) (w : World) : World :=
  mkWorld (posts w) (post_seq w) (comments w) (comment_seq w)
    (<[like_seq w := mkLike user_k post_k (clock w (reads w))]> (likes w))
    (like_seq w + 1) (clock w) (S (reads w)).

(** The world after the like under key [k] is deleted. *)
Definition unliked_world (k : Z) (w : World) : World := with_likes (delete k (likes w)) w.

(** ** Sample data *)

Module Sample.

(** [strip_tags] on a text that holds no markup: the text itself. *)
Definition plain (s : string) : string := s.

(** [slugify] on a title of letters, digits and single inner spaces: the
    letters in lower case, a hyphen for each space. *)
Definition slug_char (c : ascii) : ascii :=
  let n := N_of_ascii c in
  if ((65 <=? n) && (n <=? 90))%N then ascii_of_N (n + 32)
  else if (n =? 32)%N then "-"%char
  else c.

Fixpoint ascii_slugify (s : string) : string :=
  match s with
  | EmptyString => EmptyString
  | String c s' => String (slug_char c) (ascii_slugify s')
  end.

(** A clock that advances at every reading. *)
Definition ticking (n : nat) : Z := 1000 + Z.of_nat n.

(** Empty tables. *)
Definition empty_world : World := mkWorld ∅ 1 ∅ 1 ∅ 1 ticking 0.

(** A new post, first saved as published. *)
Definition new_published : Post :=
  mkPost None "Hello World Today" "" 7
    "A first post about nothing much, long enough to pass the form."
    "" None "published" None 0 0 false None None.

(** The same post, first saved as a draft. *)
Definition new_draft : Post := set_status "draft" new_published.

(** The draft as its first save stores it, and the world after that save. *)
Definition stored_draft : Post :=
  mkPost (Some 1) "Hello World Today" "hello-world-today" 7
    "A first post about nothing much, long enough to pass the form."
    "A first post about nothing much, long enough to pass the form...."
    None "draft" None 0 1 false (Some 1000) (Some 1001).

Definition draft_world : World :=
  mkWorld {[ 1 := stored_draft ]} 2 ∅ 1 ∅ 1 ticking 2.

(** A published post with five views, and a world that stores it. *)
Definition stored_published : Post :=
  mkPost (Some 1) "Hello World Today" "hello-world-today" 7
    "A first post about nothing much, long enough to pass the form."
    "A first post about nothing much, long enough to pass the form...."
    None "published" (Some 1002) 5 1 false (Some 1000) (Some 1003).

Definition published_world : World :=
  mkWorld {[ 1 := stored_published ]} 2 ∅ 1 ∅ 1 ticking 4.

(** A published row whose derived columns were never computed (its reading
    time is the column's default 0, its excerpt is empty and [published_at]
    is unset), as a row written without [Post.save] is. *)
Definition legacy_row : Post :=
  mkPost (Some 1) "Hello World Today" "hello-world-today" 7
    "A first post about nothing much, long enough to pass the form."
    "" None "published" None 5 0 false (Some 900) (Some 900).

Definition legacy_world : World :=
  mkWorld {[ 1 := legacy_row ]} 2 ∅ 1 ∅ 1 ticking 0.

(** Four comments on post 1: an older and a newer top-level comment, a reply
    to the older one, and a top-level comment that is not approved. *)
Definition older_comment : Comment :=
  mkComment 1 8 "An early word on this post." None true 2000 2000.
Definition newer_comment : Comment :=
  mkComment 1 9 "A later word on this post." None true 3000 3000.
Definition reply_comment : Comment :=
  mkComment 1 7 "Thank you for the early word." (Some 1) true 2500 2500.
Definition hidden_comment : Comment :=
  mkComment 1 9 "A word nobody approved yet." None false 2700 2700.

Definition thread_world : World :=
  mkWorld {[ 1 := stored_published ]} 2
    (<[1 := older_comment]> (<[2 := newer_comment]> (<[3 := reply_comment]>
       (<[4 := hidden_comment]> ∅)))) 5
    ∅ 1 ticking 4.

End Sample.

(** ** Histories of the post table *)

(** No stored post was created later than the reading [n] of the clock. *)
Definition created_by (t : gmap Z Post) (c : nat -> Z) (n : nat) : Prop :=
  forall k row, t !! k = Some row -> exists at_, created_at row = Some at_ /\ at_ <= c n.

(** No stored post was created later than the clock reads now. *)
Definition created_in_past (w : World) : Prop :=
  created_by (posts w) (clock w) (reads w).

(** An instance of a stored post carries the creation time of its row, as
    an instance read from the table does: [created_at] is [auto_now_add],
    which no form shows and no code of the project assigns. *)
Definition carries_created_at (self : Post) (w : World) : Prop :=
  forall k row, post_id self = Some k -> posts w !! k = Some row ->
                created_at self = created_at row.

(** What code that adds no post and writes no [created_at] does to the post
    table: the deletion of a post ([PostDeleteView]) and every write to
    another table are of this kind. *)
Definition keeps_created_at (w w' : World) : Prop :=
  clock w' = clock w /\ (reads w <= reads w')%nat /\
  forall k row', posts w' !! k = Some row' ->
    exists row, posts w !! k = Some row /\ created_at row' = created_at row.

(** A computation that leaves the post table and the clock alone, and at
    most reads the clock. *)
Definition only_later {A} (m : M A) : Prop :=
  forall w o w', m w = (o, w') ->
    posts w' = posts w /\ clock w' = clock w /\ (reads w <= reads w')%nat.

Section Histories.

Variable strip_tags : string -> string.
Variable slugify : string -> string.

(** One step of the life of the site: time passes, an instance that is new
    or carries the creation time of its row is saved or has its views
    counted, one of the views runs, or other code runs that adds no post
    and writes no [created_at].  A step may return or raise. *)
Inductive step : World -> World -> Prop :=
  | step_now w t w' :
      now w = (Ok t, w') -> step w w'
  | step_save uf self w o w' :
      carries_created_at self w ->
      Post_save strip_tags slugify uf self w = (o, w') -> step w w'
  | step_increment_view_count self w o w' :
      carries_created_at self w ->
      increment_view_count strip_tags slugify self w = (o, w') -> step w w'
  | step_detail user s w o w' :
      PostDetailView_get strip_tags slugify user s w = (o, w') -> step w w'
  | step_like_post user s w o w' :
      like_post user s w = (o, w') -> step w w'
  | step_ajax_like_post method user s w o w' :
      ajax_like_post method user s w = (o, w') -> step w w'
  | step_add_comment req s w o w' :
      add_comment req s w = (o, w') -> step w w'
  | step_elsewhere w w' :
      keeps_created_at w w' -> step w w'.

(** The worlds the site can reach from a world [w0]. *)
Definition reaches (w0 w : World) : Prop := rtc step w0 w.

End Histories.

(** ** Template filters ([src/blog/templatetags/blog_tags.py]) and the admin
    preview ([src/blog/admin.py]) *)

(** The values a template can hand to a filter, as far as the filters tell
    them apart: a text, an integer, or anything else ([None]). *)
Inductive PyVal :=
  | VStr (s : string)
  | VInt (n : Z)
  | VNone.

(** The slice [l[:n]] of a list: the first [n] items, or all but the last
    [-n] when [n] is negative. *)
Definition py_slice_to {A} (n : Z) (l : list A) : list A :=
  if 0 <=? n then take (Z.to_nat n) l
  else take (List.length l - Z.to_nat (- n)) l.

(** [" ".join(words)]. *)
Definition join_words (words : list string) : string := String.concat " " words.

(** [def truncate_words_custom(value, arg)].  The bare [except] returns the
    value: [value.split()] raises on a value that is no text, and
    [len(words) > arg] on an argument that is no number. *)
Definition truncate_words_custom (value arg : PyVal) : PyVal :=
  match value, arg with
  | VStr s, VInt n =>
      let words := Py.split s in
      if n <? Z.of_nat (List.length words)
      then VStr (join_words (py_slice_to n words) +:+ "...")
      else value
  | _, _ => value
  end.


(** [def content_preview(self, obj)] of [CommentAdmin], on [obj.content]. *)
Definition content_preview (text : string) : string :=
  if 50 <? Py.len text then Py.slice_to 50 text +:+ "..." else text.

(** A word: a text that is not empty and holds no whitespace. *)
Fixpoint no_space (s : string) : bool :=
  match s with
  | EmptyString => true
  | String c s' => negb (Py.isspace c) && no_space s'
  end.

Definition is_word (s : string) : Prop := s <> EmptyString /\ no_space s = true.

(** ** The state of the post table *)

(** What the database keeps true of the post table: every row carries its
    key as its [id] and meets the column constraints, and no two rows share
    a slug. *)
Definition posts_wf (t : gmap Z Post) : Prop :=
  (forall k row, t !! k = Some row -> post_id row = Some k /\ row_ok row)
  /\ (forall k1 r1 k2 r2,
        t !! k1 = Some r1 -> t !! k2 = Some r2 -> slug r1 = slug r2 -> k1 = k2).

(** ** Instances whose derived fields are up to date *)

Section Settled.

Variable strip_tags : string -> string.
Variable slugify : string -> string.

(** The four [if]s of [Post.save] find nothing to do on the instance. *)
Definition settled (p : Post) : Prop :=
  (Py.truthy (slug p) = false -> slugify (title p) = slug p)
  /\ (Py.truthy (excerpt p) = false -> Py.truthy (content p) = false)
  /\ (Py.truthy (content p) = true -> reading_time p = reading_time_of strip_tags (content p))
  /\ publishes p = false.

(** The requests of the detail page of the slug [s] by the readers [users],
    one after the other. *)
Fixpoint detail_requests (users : list RequestUser) (s : string) : M unit :=
  match users with
  | [] => ret tt
  | user :: rest =>
      PostDetailView_get strip_tags slugify user s ;;; detail_requests rest s
  end.

End Settled.

(** * Properties *)

Ltac run_save :=
  unfold Model_save, insert_new, do_update, do_insert, pre_save_created_at,
    pre_save_updated_at, next_post_id, bind, ret, raise, now, get_world, put_posts in *;
  simpl in *.

Ltac split_cases := repeat (case_match; simplify_eq; simpl in * ).

(** ** Text primitives *)


Example round_div_ties :
  Py.round_div 60 200 = 0 /\ Py.round_div 100 200 = 0 /\ Py.round_div 101 200 = 1
  /\ Py.round_div 300 200 = 2 /\ Py.round_div 500 200 = 2.
Proof. repeat split; reflexivity. Qed.

Example split_words : Py.split "  two  words " = ["two"; "words"].
Proof. reflexivity. Qed.

Example strip_both_ends : Py.strip "  a b   " = "a b".
Proof. reflexivity. Qed.

Lemma truthy_true (s : string) : Py.truthy s = true <-> s <> EmptyString.
Proof.
  unfold Py.truthy. destruct (String.eqb_spec s EmptyString); simpl; split; congruence.
Qed.

Lemma truthy_false (s : string) : Py.truthy s = false <-> s = EmptyString.
Proof.
  unfold Py.truthy. destruct (String.eqb_spec s EmptyString); simpl; split; congruence.
Qed.

Section DerivedFacts.

Variable strip_tags : string -> string.
Variable slugify : string -> string.

Lemma Post_save_derive_eq self w :
  Post_save_derive strip_tags slugify self w =
    (Ok (derive_fields strip_tags slugify (clock w (reads w)) self),
     if publishes self then with_reads (S (reads w)) w else w).
Proof.
  unfold Post_save_derive, derive_fields, publishes.
  destruct self as [i ti sl au co ex fi st pa vc rt isf ca ua]; simpl.
  destruct (Py.truthy sl) eqn:Hs, (Py.truthy ex) eqn:He, (Py.truthy co) eqn:Hc;
    repeat (simpl; rewrite ?Hs, ?He, ?Hc);
    destruct (String.eqb st "published"), pa; reflexivity.
Qed.

(** What the four [if]s leave alone. *)
Lemma derive_fields_frame t self :
  let p := derive_fields strip_tags slugify t self in
  post_id p = post_id self /\ title p = title self /\ author p = author self /\
  content p = content self /\ featured_image p = featured_image self /\
  status p = status self /\ view_count p = view_count self /\
  is_featured p = is_featured self /\ created_at p = created_at self /\
  updated_at p = updated_at self.
Proof.
  unfold derive_fields, publishes.
  destruct self as [i ti sl au co ex fi st pa vc rt isf ca ua]; simpl.
  destruct (Py.truthy sl) eqn:Hs, (Py.truthy ex) eqn:He, (Py.truthy co) eqn:Hc;
    repeat (simpl; rewrite ?Hs, ?He, ?Hc);
    destruct (String.eqb st "published"), pa; simpl; repeat split; reflexivity.
Qed.

Lemma derive_fields_reading_time t self :
  reading_time (derive_fields strip_tags slugify t self) =
    if Py.truthy (content self) then reading_time_of strip_tags (content self)
    else reading_time self.
Proof.
  unfold derive_fields, publishes.
  destruct self as [i ti sl au co ex fi st pa vc rt isf ca ua]; simpl.
  destruct (Py.truthy sl) eqn:Hs, (Py.truthy ex) eqn:He, (Py.truthy co) eqn:Hc;
    repeat (simpl; rewrite ?Hs, ?He, ?Hc);
    destruct (String.eqb st "published"), pa; reflexivity.
Qed.

Lemma derive_fields_excerpt t self :
  excerpt (derive_fields strip_tags slugify t self) =
    if negb (Py.truthy (excerpt self)) && Py.truthy (content self)
    then excerpt_of strip_tags (content self)
    else excerpt self.
Proof.
  unfold derive_fields, publishes.
  destruct self as [i ti sl au co ex fi st pa vc rt isf ca ua]; simpl.
  destruct (Py.truthy sl) eqn:Hs, (Py.truthy ex) eqn:He, (Py.truthy co) eqn:Hc;
    repeat (simpl; rewrite ?Hs, ?He, ?Hc);
    destruct (String.eqb st "published"), pa; reflexivity.
Qed.

Lemma derive_fields_slug t self :
  slug (derive_fields strip_tags slugify t self) =
    if Py.truthy (slug self) then slug self else slugify (title self).
Proof.
  unfold derive_fields, publishes.
  destruct self as [i ti sl au co ex fi st pa vc rt isf ca ua]; simpl.
  destruct (Py.truthy sl) eqn:Hs, (Py.truthy ex) eqn:He, (Py.truthy co) eqn:Hc;
    repeat (simpl; rewrite ?Hs, ?He, ?Hc);
    destruct (String.eqb st "published"), pa; reflexivity.
Qed.

Lemma derive_fields_published_at t self :
  published_at (derive_fields strip_tags slugify t self) =
    if publishes self then Some t else published_at self.
Proof.
  unfold derive_fields, publishes.
  destruct self as [i ti sl au co ex fi st pa vc rt isf ca ua]; simpl.
  destruct (Py.truthy sl) eqn:Hs, (Py.truthy ex) eqn:He, (Py.truthy co) eqn:Hc;
    repeat (simpl; rewrite ?Hs, ?He, ?Hc);
    destruct (String.eqb st "published"), pa; reflexivity.
Qed.

(** The stored reading time does not reach the instance when the content is
    not empty. *)
Lemma derive_fields_forgets_reading_time t v self :
  Py.truthy (content self) = true ->
  derive_fields strip_tags slugify t (set_reading_time v self) =
    derive_fields strip_tags slugify t self.
Proof.
  unfold derive_fields, publishes.
  destruct self as [i ti sl au co ex fi st pa vc rt isf ca ua]; simpl.
  intros Hc.
  destruct (Py.truthy sl) eqn:Hs, (Py.truthy ex) eqn:He;
    repeat (simpl; rewrite ?Hs, ?He, ?Hc);
    destruct (String.eqb st "published"), pa; reflexivity.
Qed.

End DerivedFacts.

(** ** Facts about the parent's [save] *)

(** The parent's [save] changes no column of the instance but the key and
    the two timestamps, and touches no table but the posts. *)
Lemma Model_save_frame uf self w p w' :
  Model_save uf self w = (Ok p, w') ->
  title p = title self /\ slug p = slug self /\ author p = author self /\
  content p = content self /\ excerpt p = excerpt self /\
  featured_image p = featured_image self /\ status p = status self /\
  published_at p = published_at self /\ view_count p = view_count self /\
  reading_time p = reading_time self /\ is_featured p = is_featured self /\
  comments w' = comments w /\ likes w' = likes w /\ clock w' = clock w.
Proof.
  intros H. destruct self. run_save.
  split_cases; repeat split; reflexivity.
Qed.

(** After a save of every column the stored row is the instance. *)
Lemma Model_save_full_stored self w p w' :
  Model_save None self w = (Ok p, w') ->
  exists k, post_id p = Some k /\ posts w' !! k = Some p.
Proof.
  intros H. destruct self as [i ti sl au co ex fi st pa vc rt isf ca ua]. run_save.
  split_cases.
  all: eexists; split; [reflexivity|]; rewrite lookup_insert_eq; reflexivity.
Qed.

(** An [INSERT] under a free key and slug goes through. *)
Lemma Model_save_insert_ok self w :
  post_id self = None ->
  posts w !! post_seq w = None ->
  slug_free (post_seq w) (slug self) (posts w) ->
  0 <= view_count self -> 0 <= reading_time self ->
  exists p w', Model_save None self w = (Ok p, w') /\ post_id p = Some (post_seq w).
Proof.
  intros Hid Hfresh Hslug Hv Hr.
  destruct self as [i ti sl au co ex fi st pa vc rt isf ca ua]; simpl in *; subst i.
  run_save. case_decide as Hd.
  - eexists _, _. split; reflexivity.
  - exfalso. apply Hd. unfold row_ok; simpl. repeat split; eauto.
Qed.

Section SaveFacts.
Variable strip_tags : string -> string.
Variable slugify : string -> string.

(** [Post.save] is the parent's [save] of the derived instance. *)
Lemma Post_save_eq uf self w :
  Post_save strip_tags slugify uf self w =
    Model_save uf (derive_fields strip_tags slugify (clock w (reads w)) self)
      (if publishes self then with_reads (S (reads w)) w else w).
Proof. unfold Post_save, bind. rewrite Post_save_derive_eq. reflexivity. Qed.

Lemma reading_time_of_pos text : 1 <= reading_time_of strip_tags text.
Proof. unfold reading_time_of. lia. Qed.

(** The save of a new post under a free key and slug completes. *)
Lemma Post_save_create_ok (self : Post) (w : World) :
  post_id self = None ->
  posts w !! post_seq w = None ->
  slug_free (post_seq w)
    (if Py.truthy (slug self) then slug self else slugify (title self)) (posts w) ->
  0 <= view_count self ->
  content self <> EmptyString \/ 0 <= reading_time self ->
  exists self' w', Post_save strip_tags slugify None self w = (Ok self', w').
Proof.
  intros Hid Hfresh Hslug Hv Hr. rewrite Post_save_eq.
  pose proof (derive_fields_frame strip_tags slugify (clock w (reads w)) self) as F.
  simpl in F. destruct F as (Fid & _ & _ & _ & _ & _ & Fv & _).
  destruct (Model_save_insert_ok
              (derive_fields strip_tags slugify (clock w (reads w)) self)
              (if publishes self then with_reads (S (reads w)) w else w))
    as (p & w' & H & _).
  - congruence.
  - destruct (publishes self); exact Hfresh.
  - rewrite derive_fields_slug. destruct (publishes self); exact Hslug.
  - lia.
  - rewrite derive_fields_reading_time.
    destruct (Py.truthy (content self)) eqn:Hc.
    + pose proof (reading_time_of_pos (content self)). lia.
    + destruct Hr as [Hr|Hr]; [|exact Hr]. apply truthy_true in Hr. congruence.
  - eauto.
Qed.

(** C1.  A save of a post whose content is not empty sets [reading_time] to
    [max(1, round(word_count / 200))], the words counted in the content
    with its markup stripped: whatever the reading time was before (the
    save of an instance does not depend on it), on the instance and, when
    every column is saved, in the stored row.  The save of a new post under
    a free key and slug does complete. *)
Theorem C1_reading_time_recomputed (uf : option (list Field)) (self : Post) (w : World) :
  content self <> EmptyString ->
  (forall v, Post_save strip_tags slugify uf (set_reading_time v self) w
             = Post_save strip_tags slugify uf self w)
  /\ (forall self' w', Post_save strip_tags slugify uf self w = (Ok self', w') ->
        reading_time self'
          = Z.max 1 (Py.round_div
                       (Z.of_nat (List.length (Py.split (strip_tags (content self))))) 200)
        /\ (uf = None -> exists k, post_id self' = Some k /\ posts w' !! k = Some self'))
  /\ (post_id self = None ->
      posts w !! post_seq w = None ->
      slug_free (post_seq w)
        (if Py.truthy (slug self) then slug self else slugify (title self)) (posts w) ->
      0 <= view_count self ->
      exists self' w', Post_save strip_tags slugify None self w = (Ok self', w')).
Proof.
  intros Hne. pose proof Hne as Hc. apply truthy_true in Hc. split; [|split].
  - intros v. rewrite !Post_save_eq.
    rewrite derive_fields_forgets_reading_time by exact Hc.
    destruct self; reflexivity.
  - intros self' w' H. rewrite Post_save_eq in H. split.
    + apply Model_save_frame in H.
      destruct H as (_ & _ & _ & _ & _ & _ & _ & _ & _ & Hrt & _).
      rewrite Hrt, derive_fields_reading_time, Hc. reflexivity.
    + intros ->. apply Model_save_full_stored in H. exact H.
  - intros Hid Hfresh Hslug Hv.
    apply Post_save_create_ok; auto.
Qed.

(** The slice [s[:n]] is the first [min n (len s)] characters of [s]. *)
Lemma slice_to_prefix (n : nat) (s : string) :
  exists rest, s = Py.slice_to n s +:+ rest
               /\ String.length (Py.slice_to n s) = Nat.min n (String.length s).
Proof.
  unfold Py.slice_to. revert s. induction n as [|n IH]; intros s.
  - exists s. destruct s; split; reflexivity.
  - destruct s as [|c s].
    + exists EmptyString. split; reflexivity.
    + destruct (IH s) as (rest & E & L). exists rest. split.
      * change (String c s = String c (substring 0 n s +:+ rest)).
        f_equal. exact E.
      * simpl. f_equal. exact L.
Qed.

(** C5.  A save of a post with an empty excerpt and content that is not
    empty sets the excerpt to the first 297 characters of the content with
    its markup stripped, followed by three dots; a save of a post whose
    excerpt is not empty keeps the excerpt as it is.  This holds on the
    instance and, when every column is saved, in the stored row, and the
    save of a new post under a free key and slug does complete. *)
Theorem C5_excerpt_filled_only_when_empty
    (uf : option (list Field)) (self : Post) (w : World) (self' : Post) (w' : World) :
  Post_save strip_tags slugify uf self w = (Ok self', w') ->
  (excerpt self = EmptyString -> content self <> EmptyString ->
     excerpt self' = Py.slice_to 297 (strip_tags (content self)) +:+ "..."
     /\ exists rest,
          strip_tags (content self) = Py.slice_to 297 (strip_tags (content self)) +:+ rest
          /\ String.length (Py.slice_to 297 (strip_tags (content self)))
               = Nat.min 297 (String.length (strip_tags (content self))))
  /\ (excerpt self <> EmptyString -> excerpt self' = excerpt self)
  /\ (uf = None -> exists k, post_id self' = Some k /\ posts w' !! k = Some self').
Proof.
  intros H. rewrite Post_save_eq in H.
  pose proof (Model_save_frame _ _ _ _ _ H) as (_ & _ & _ & _ & Hex & _).
  rewrite derive_fields_excerpt in Hex.
  split; [|split].
  - intros He Hc. apply truthy_false in He. apply truthy_true in Hc.
    rewrite He, Hc in Hex. simpl in Hex. split; [exact Hex|].
    apply slice_to_prefix.
  - intros He. apply truthy_true in He. rewrite He in Hex. exact Hex.
  - intros ->. apply Model_save_full_stored in H. exact H.
Qed.

End SaveFacts.

Lemma C1_reading_time_recomputed_witness :
  exists self' w',
    Post_save Sample.plain Sample.ascii_slugify None Sample.new_draft Sample.empty_world
      = (Ok self', w')
    /\ reading_time self' = 1
    /\ posts w' !! 1 = Some self'.
Proof.
  destruct (C1_reading_time_recomputed Sample.plain Sample.ascii_slugify None
              Sample.new_draft Sample.empty_world) as (_ & H & Hex);
    [discriminate|].
  destruct Hex as (self' & w' & E);
    [reflexivity | reflexivity | apply map_Forall_empty | simpl; lia |].
  exists self', w'. split; [exact E|].
  destruct (H _ _ E) as [Hrt Hst]. split; [rewrite Hrt; reflexivity|].
  destruct (Hst eq_refl) as (k & Hk & Hrow).
  assert (k = 1) as ->; [|exact Hrow].
  vm_compute in E. injection E as <- <-. simpl in Hk. congruence.
Defined.

Lemma C5_excerpt_filled_only_when_empty_witness :
  exists self' w',
    Post_save Sample.plain Sample.ascii_slugify None Sample.new_draft Sample.empty_world
      = (Ok self', w')
    /\ excerpt self'
       = "A first post about nothing much, long enough to pass the form...."
    /\ exists k, post_id self' = Some k /\ posts w' !! k = Some self'.
Proof.
  destruct (Post_save_create_ok Sample.plain Sample.ascii_slugify
              Sample.new_draft Sample.empty_world) as (self' & w' & E);
    [reflexivity | reflexivity | apply map_Forall_empty | simpl; lia
    | left; discriminate |].
  exists self', w'. split; [exact E|].
  destruct (C5_excerpt_filled_only_when_empty Sample.plain Sample.ascii_slugify
              None Sample.new_draft Sample.empty_world self' w' E) as (Hfill & _ & Hst).
  split.
  - destruct Hfill as [-> _]; [reflexivity | discriminate | reflexivity].
  - apply Hst. reflexivity.
Defined.

(** ** [published_at] *)

Lemma draft_world_reached :
  Post_save Sample.plain Sample.ascii_slugify None Sample.new_draft Sample.empty_world
  = (Ok Sample.stored_draft, Sample.draft_world).
Proof. vm_compute. reflexivity. Qed.

Lemma ticking_monotone : monotone Sample.ticking.
Proof. intros i j Hij. unfold Sample.ticking. lia. Qed.

(** A save that finds the row of the instance leaves [created_at] alone. *)
Lemma Model_save_keeps_created_at uf self w p w' k :
  Model_save uf self w = (Ok p, w') ->
  post_id self = Some k -> is_Some (posts w !! k) ->
  created_at p = created_at self /\ post_id p = Some k.
Proof.
  intros H Hid [row Hrow]. destruct self as [i ti sl au co ex fi st pa vc rt isf ca ua].
  simpl in Hid; subst i. run_save.
  split_cases; split; reflexivity.
Qed.

Lemma publishes_true self :
  publishes self = true <-> status self = "published" /\ published_at self = None.
Proof.
  unfold publishes. rewrite andb_true_iff, String.eqb_eq.
  destruct (published_at self); simpl; intuition congruence.
Qed.

(** C2 as stated fails on a post that is created as published: the save reads
    the clock for [published_at] first and for [created_at] afterwards, so on
    a clock that advances [created_at] is the later of the two. *)
Lemma C2_counterexample :
  monotone Sample.ticking
  /\ exists self' w',
       Post_save Sample.plain Sample.ascii_slugify None
         Sample.new_published Sample.empty_world = (Ok self', w')
       /\ published_at self' = Some 1000
       /\ created_at self' = Some 1001
       /\ ~ (1001 <= 1000).
Proof.
  split; [exact ticking_monotone|].
  eexists _, _. split; [vm_compute; reflexivity|].
  repeat split; lia.
Qed.

(** ** Lists of rows *)

Lemma filter_none {A} (P : A -> Prop) `{forall x, Decision (P x)} (l : list A) :
  (forall y, y ∈ l -> ~ P y) -> filter P l = [].
Proof.
  induction l as [|a l IH]; intros Hn; [reflexivity|].
  rewrite filter_cons_False by (apply Hn; left).
  apply IH. intros y Hy. apply Hn. right. exact Hy.
Qed.

Lemma filter_only {A} (P : A -> Prop) `{forall x, Decision (P x)} (l : list A) (x : A) :
  NoDup l -> x ∈ l -> P x -> (forall y, y ∈ l -> P y -> y = x) -> filter P l = [x].
Proof.
  induction l as [|a l IH]; intros Hnd Hx HP Huniq.
  - inversion Hx.
  - apply NoDup_cons in Hnd as [Ha Hnd].
    destruct (decide (P a)) as [HPa|HPa].
    + assert (a = x) as -> by (apply Huniq; [left | exact HPa]).
      rewrite filter_cons_True by exact HPa. f_equal.
      apply filter_none. intros y Hy HPy.
      assert (y = x) as -> by (apply Huniq; [right; exact Hy | exact HPy]).
      contradiction.
    + rewrite filter_cons_False by exact HPa.
      apply IH; [exact Hnd | | exact HP |].
      * apply elem_of_cons in Hx as [->|Hx]; [contradiction | exact Hx].
      * intros y Hy. apply Huniq. right. exact Hy.
Qed.

Lemma elem_of_post_rows (t : gmap Z Post) (p : Post) :
  p ∈ post_rows t <-> exists k row, t !! k = Some row /\ p = load_post (k, row).
Proof.
  unfold post_rows. rewrite list_elem_of_fmap. split.
  - intros ([k row] & -> & Hin). apply elem_of_map_to_list in Hin. eauto.
  - intros (k & row & Hrow & ->). exists (k, row). split; [reflexivity|].
    apply elem_of_map_to_list. exact Hrow.
Qed.

Lemma NoDup_post_rows (t : gmap Z Post) : NoDup (post_rows t).
Proof.
  unfold post_rows. apply (NoDup_fmap_1 post_id).
  rewrite <- list_fmap_compose.
  replace (post_id ∘ load_post) with (Some ∘ (fst : Z * Post -> Z)).
  - rewrite list_fmap_compose. apply NoDup_fmap_2; [apply _|].
    apply NoDup_fst_map_to_list.
  - reflexivity.
Qed.

Lemma load_post_frame k row :
  post_id (load_post (k, row)) = Some k /\ slug (load_post (k, row)) = slug row /\
  status (load_post (k, row)) = status row /\ author (load_post (k, row)) = author row /\
  view_count (load_post (k, row)) = view_count row.
Proof. repeat split; reflexivity. Qed.

Lemma get_post_or_404_found s k row w :
  slug_names s k row (posts w) ->
  get_post_or_404 s w = (Ok (load_post (k, row)), w).
Proof.
  intros (Hrow & Hs & Huniq). unfold get_post_or_404, get_world, bind, get_or_404.
  rewrite (filter_only _ _ (load_post (k, row))).
  - reflexivity.
  - apply NoDup_post_rows.
  - apply elem_of_post_rows. eauto.
  - exact Hs.
  - intros y Hy Hsy. apply elem_of_post_rows in Hy as (k' & row' & Hrow' & ->).
    assert (k' = k) as -> by (apply (Huniq k' row'); [exact Hrow' | exact Hsy]).
    congruence.
Qed.

Lemma PostDetailView_get_object_found user s k row w :
  slug_names s k row (posts w) ->
  detail_visible user (load_post (k, row)) = true ->
  PostDetailView_get_object user s w = (Ok (load_post (k, row)), w).
Proof.
  intros (Hrow & Hs & Huniq) Hvis.
  unfold PostDetailView_get_object, PostDetailView_get_queryset, get_world, bind, get_or_404.
  rewrite (filter_only _ _ (load_post (k, row))).
  - reflexivity.
  - apply NoDup_filter, NoDup_post_rows.
  - apply list_elem_of_filter. split; [exact Hvis|]. apply elem_of_post_rows. eauto.
  - exact Hs.
  - intros y Hy Hsy. apply list_elem_of_filter in Hy as [_ Hy].
    apply elem_of_post_rows in Hy as (k' & row' & Hrow' & ->).
    assert (k' = k) as -> by (apply (Huniq k' row'); [exact Hrow' | exact Hsy]).
    congruence.
Qed.

Lemma PostDetailView_get_object_hidden user s k row w :
  slug_names s k row (posts w) ->
  detail_visible user (load_post (k, row)) = false ->
  PostDetailView_get_object user s w = (Raise Http404, w).
Proof.
  intros (Hrow & Hs & Huniq) Hvis.
  unfold PostDetailView_get_object, PostDetailView_get_queryset, get_world, bind, get_or_404.
  rewrite filter_none; [reflexivity|].
  intros y Hy Hsy. apply list_elem_of_filter in Hy as [Hv Hy].
  apply elem_of_post_rows in Hy as (k' & row' & Hrow' & ->).
  assert (k' = k) as -> by (apply (Huniq k' row'); [exact Hrow' | exact Hsy]).
  congruence.
Qed.

Lemma get_or_404_inv {A} (l : list A) (w : World) o w' :
  get_or_404 l w = (o, w') -> w' = w /\ forall a, o = Ok a -> l = [a].
Proof.
  unfold get_or_404, queryset_get, ret, raise.
  destruct l as [|a [|b l]]; intros E; simplify_eq; split; try reflexivity;
    intros a' Ha; congruence.
Qed.

Lemma PostDetailView_get_object_inv user s w o w' :
  PostDetailView_get_object user s w = (o, w') ->
  w' = w /\
  forall p, o = Ok p ->
    slug p = s /\ detail_visible user p = true /\
    exists k row, posts w !! k = Some row /\ p = load_post (k, row).
Proof.
  unfold PostDetailView_get_object, get_world, bind. intros E.
  apply get_or_404_inv in E as [-> E]. split; [reflexivity|].
  intros p Hp. specialize (E p Hp).
  assert (p ∈ filter (has_slug s) (PostDetailView_get_queryset user w)) as Hin
    by (rewrite E; left).
  apply list_elem_of_filter in Hin as [Hs Hin].
  apply list_elem_of_filter in Hin as [Hv Hin].
  apply elem_of_post_rows in Hin. auto.
Qed.

(** ** [increment_view_count] *)

(** The parent's [save] with [update_fields=["view_count"]]: one [UPDATE] of
    the one column. *)
Lemma Model_save_view_count p w k row :
  post_id p = Some k -> posts w !! k = Some row -> row_ok row -> 0 <= view_count p ->
  Model_save (Some [F_view_count]) p w =
    (Ok p, with_posts
             (<[k := set_post_id (Some k) (set_view_count (view_count p) row)]> (posts w)) w).
Proof.
  intros Hid Hrow (Hc & Hu & Hv & Hr) Hvp.
  unfold Model_save. rewrite Hid.
  case_decide as Hin.
  { apply list_elem_of_singleton in Hin. discriminate. }
  unfold bind, ret, get_world. rewrite Hrow.
  unfold do_update, bind, get_world, put_posts, raise. simpl.
  case_decide as Hd; [reflexivity|].
  exfalso. apply Hd. split.
  - unfold row_ok. simpl. auto.
  - intros Hin'. apply list_elem_of_singleton in Hin'. discriminate.
Qed.

Section Increment.

Variable strip_tags : string -> string.
Variable slugify : string -> string.

Lemma increment_view_count_run self w k row :
  post_id self = Some k -> posts w !! k = Some row -> row_ok row -> 0 <= view_count self ->
  increment_view_count strip_tags slugify self w =
    (Ok (derive_fields strip_tags slugify (clock w (reads w))
           (set_view_count (view_count self + 1) self)),
     with_posts
       (<[k := set_post_id (Some k) (set_view_count (view_count self + 1) row)]> (posts w))
       (if publishes self then with_reads (S (reads w)) w else w)).
Proof.
  intros Hid Hrow Hok Hv. unfold increment_view_count. rewrite Post_save_eq.
  pose proof (derive_fields_frame strip_tags slugify (clock w (reads w))
                (set_view_count (view_count self + 1) self)) as F.
  simpl in F. destruct F as (Fid & _ & _ & _ & _ & _ & Fv & _).
  replace (publishes (set_view_count (view_count self + 1) self)) with (publishes self)
    by (destruct self; reflexivity).
  rewrite (Model_save_view_count _ _ k row).
  - rewrite Fv. destruct (publishes self); reflexivity.
  - rewrite Fid. exact Hid.
  - destruct (publishes self); exact Hrow.
  - exact Hok.
  - rewrite Fv. simpl. lia.
Qed.

(** [Post.save] leaves the status of the instance alone. *)
Lemma Post_save_status uf self w p w' :
  Post_save strip_tags slugify uf self w = (Ok p, w') -> status p = status self.
Proof.
  intros H. rewrite Post_save_eq in H.
  apply Model_save_frame in H as (_ & _ & _ & _ & _ & _ & Hs & _).
  pose proof (derive_fields_frame strip_tags slugify (clock w (reads w)) self) as F.
  simpl in F. destruct F as (_ & _ & _ & _ & _ & Fs & _). congruence.
Qed.

(** C4 (amended).  On an instance of a stored post, [increment_view_count]
    completes with one [UPDATE] that writes the instance's [view_count + 1]
    into the [view_count] column of the post's row: one more than the stored
    count when the instance holds the stored count.  Every other column of
    the row (slug, excerpt, reading time and [published_at] among them),
    every other row and every other table stay as they were. *)
Theorem C4_increment_view_count_writes_one_column
    (self : Post) (w : World) (k : Z) (row : Post) :
  post_id self = Some k -> posts w !! k = Some row -> row_ok row -> 0 <= view_count self ->
  exists self' w' row',
    increment_view_count strip_tags slugify self w = (Ok self', w')
    /\ view_count self' = view_count self + 1
    /\ posts w' = <[k := row']> (posts w)
    /\ row' = set_post_id (Some k) (set_view_count (view_count self + 1) row)
    /\ view_count row' = view_count self + 1
    /\ (view_count self = view_count row -> view_count row' = view_count row + 1)
    /\ (title row' = title row /\ slug row' = slug row /\ author row' = author row
        /\ content row' = content row /\ excerpt row' = excerpt row
        /\ featured_image row' = featured_image row /\ status row' = status row
        /\ published_at row' = published_at row /\ reading_time row' = reading_time row
        /\ is_featured row' = is_featured row /\ created_at row' = created_at row
        /\ updated_at row' = updated_at row)
    /\ (forall k', k' <> k -> posts w' !! k' = posts w !! k')
    /\ post_seq w' = post_seq w /\ comments w' = comments w /\ likes w' = likes w.
Proof.
  intros Hid Hrow Hok Hv.
  eexists _, _, _. split; [apply (increment_view_count_run self w k row); assumption|].
  pose proof (derive_fields_frame strip_tags slugify (clock w (reads w))
                (set_view_count (view_count self + 1) self)) as F.
  simpl in F. destruct F as (_ & _ & _ & _ & _ & _ & Fv & _).
  split; [exact Fv|].
  split; [destruct (publishes self); reflexivity|].
  split; [reflexivity|].
  split; [reflexivity|].
  split; [intros ->; reflexivity|].
  split; [repeat split; reflexivity|].
  split.
  - intros k' Hk'. destruct (publishes self); simpl; rewrite lookup_insert_ne; auto.
  - destruct (publishes self); repeat split; reflexivity.
Qed.

(** C10.  A request of the detail page changes the world only when the post
    it shows has status "published": when the post shown has another status
    the world after the request is the world before it, view count and every
    other stored field included.  An author's request of their own draft is
    answered with the draft and changes nothing, and the request of a
    published post adds one to its stored view count. *)
Theorem C10_only_published_posts_are_counted (user : RequestUser) (s : string) (w : World) :
  (forall ctx w', PostDetailView_get strip_tags slugify user s w = (Ok ctx, w') ->
     (status (ctx_object ctx) <> "published" -> w' = w)
     /\ (posts w' <> posts w -> status (ctx_object ctx) = "published"))
  /\ (forall k row,
        slug_names s k row (posts w) -> status row = "draft" ->
        user = AuthUser (author row) ->
        exists ctx,
          PostDetailView_get strip_tags slugify user s w = (Ok ctx, w)
          /\ ctx_object ctx = load_post (k, row)
          /\ posts w !! k = Some row)
  /\ (forall k row,
        slug_names s k row (posts w) -> status row = "published" -> row_ok row ->
        exists ctx w',
          PostDetailView_get strip_tags slugify user s w = (Ok ctx, w')
          /\ posts w' = <[k := set_post_id (Some k) (set_view_count (view_count row + 1) row)]>
                          (posts w)).
Proof.
  assert (forall ctx w', PostDetailView_get strip_tags slugify user s w = (Ok ctx, w') ->
            status (ctx_object ctx) <> "published" -> w' = w) as Honly.
  { intros ctx w' H Hs. unfold PostDetailView_get, bind in H.
    destruct (PostDetailView_get_object user s w) as [[p|e] w1] eqn:Eo; [|discriminate].
    apply PostDetailView_get_object_inv in Eo as [-> _].
    unfold PostDetailView_get_context_data, bind in H.
    destruct (String.eqb_spec (status p) "published") as [Hp|Hp].
    - destruct (increment_view_count strip_tags slugify p w) as [[p'|e] w2] eqn:Ei;
        [|discriminate].
      unfold get_world, ret in H. injection H as <- <-. simpl in Hs.
      apply Post_save_status in Ei. simpl in Ei. congruence.
    - unfold ret, get_world in H. injection H as <- <-. reflexivity. }
  split; [|split].
  - intros ctx w' H. split; [apply Honly; exact H|].
    intros Hne. destruct (decide (status (ctx_object ctx) = "published")) as [|Hs]; [assumption|].
    exfalso. apply Hne. rewrite (Honly _ _ H Hs). reflexivity.
  - intros k row Hnames Hd ->. unfold PostDetailView_get, bind.
    rewrite (PostDetailView_get_object_found _ s k row); [|exact Hnames|].
    + unfold PostDetailView_get_context_data, bind. simpl. rewrite Hd. simpl.
      unfold ret, get_world. eexists. split; [reflexivity|]. split; [reflexivity|].
      apply Hnames.
    + simpl. rewrite Hd. simpl. rewrite bool_decide_eq_true_2 by reflexivity. reflexivity.
  - intros k row Hnames Hp Hok. unfold PostDetailView_get, bind.
    rewrite (PostDetailView_get_object_found _ s k row); [|exact Hnames|].
    + unfold PostDetailView_get_context_data, bind. simpl. rewrite Hp. simpl.
      rewrite (increment_view_count_run _ _ k row);
        [|reflexivity|apply Hnames|exact Hok|simpl; apply Hok].
      unfold get_world, ret. eexists _, _. split; [reflexivity|].
      simpl. destruct (publishes (load_post (k, row))); reflexivity.
    + destruct user; simpl; rewrite Hp; reflexivity.
Qed.

End Increment.

Lemma C4_increment_view_count_writes_one_column_witness :
  exists self' w' row',
    increment_view_count Sample.plain Sample.ascii_slugify
      Sample.stored_published Sample.published_world = (Ok self', w')
    /\ posts w' !! 1 = Some row'
    /\ view_count row' = 6
    /\ row' = set_view_count 6 Sample.stored_published.
Proof.
  destruct (C4_increment_view_count_writes_one_column Sample.plain Sample.ascii_slugify
              Sample.stored_published Sample.published_world 1 Sample.stored_published)
    as (self' & w' & row' & E & _ & Hposts & Hrow' & _);
    [reflexivity | reflexivity | | simpl; lia |].
  - unfold row_ok. simpl. repeat split; eauto; lia.
  - exists self', w', row'. split; [exact E|].
    rewrite Hposts, lookup_insert_eq, Hrow'. repeat split; reflexivity.
Defined.

(** C4 as stated fails twice.  On a row whose derived columns are stale the
    instance comes back with excerpt, reading time and [published_at]
    recomputed (and the clock read): the derived-field pipeline did run.  And
    two requests of the detail page that both read the row before either
    writes it leave the count one higher, not two: the increment is a write
    of a value computed from the instance, not an increment in the database. *)
Lemma C4_counterexample :
  (exists self' w',
     increment_view_count Sample.plain Sample.ascii_slugify
       Sample.legacy_row Sample.legacy_world = (Ok self', w')
     /\ reading_time Sample.legacy_row = 0 /\ reading_time self' = 1
     /\ excerpt Sample.legacy_row = EmptyString /\ excerpt self' <> EmptyString
     /\ published_at Sample.legacy_row = None /\ published_at self' = Some 1000
     /\ reads Sample.legacy_world = 0%nat /\ reads w' = 1%nat)
  /\ (exists r w' row',
        (a <- PostDetailView_get_object AnonymousUser "hello-world-today" ;;
         b <- PostDetailView_get_object (AuthUser 8) "hello-world-today" ;;
         PostDetailView_get_context_data Sample.plain Sample.ascii_slugify AnonymousUser a ;;;
         PostDetailView_get_context_data Sample.plain Sample.ascii_slugify (AuthUser 8) b)
          Sample.published_world = (Ok r, w')
        /\ view_count Sample.stored_published = 5
        /\ posts w' !! 1 = Some row'
        /\ view_count row' = 6).
Proof.
  split.
  - eexists _, _. split; [vm_compute; reflexivity|].
    repeat split; try reflexivity. discriminate.
  - eexists _, _, _. split; [vm_compute; reflexivity|].
    repeat split; vm_compute; reflexivity.
Qed.

Lemma C10_only_published_posts_are_counted_witness :
  exists ctx,
    PostDetailView_get Sample.plain Sample.ascii_slugify (AuthUser 7)
      "hello-world-today" Sample.draft_world = (Ok ctx, Sample.draft_world)
    /\ ctx_object ctx = Sample.stored_draft.
Proof.
  destruct (C10_only_published_posts_are_counted Sample.plain Sample.ascii_slugify
              (AuthUser 7) "hello-world-today" Sample.draft_world) as (_ & Hdraft & _).
  destruct (Hdraft 1 Sample.stored_draft) as (ctx & E & Hobj & _);
    [|reflexivity|reflexivity|].
  - split; [reflexivity|]. split; [reflexivity|].
    intros k' row' Hrow' _. simpl in Hrow'.
    apply lookup_singleton_Some in Hrow' as [<- _]. reflexivity.
  - exists ctx. split; [exact E|]. exact Hobj.
Defined.
(** ** Who may read a post *)

Lemma detail_visible_spec (user : RequestUser) (p : Post) :
  detail_visible user p = true <->
  status p = "published" \/ (status p = "draft" /\ user = AuthUser (author p)).
Proof.
  unfold detail_visible. destruct user as [|u].
  - rewrite String.eqb_eq. split; [auto|]. intros [H|[_ H]]; [exact H | discriminate].
  - rewrite orb_true_iff, andb_true_iff, bool_decide_eq_true, !String.eqb_eq.
    split.
    + intros [H|[-> H]]; auto.
    + intros [H|[H E]]; [auto|]. injection E as ->. auto.
Qed.

(** C7.  The post a reader retrieves through the detail view is a stored
    post that is published or is a draft of the reader's own, and is
    published when the reader is anonymous.  The other way round, for the
    post a slug names: every reader retrieves it when it is published, its
    author retrieves it when it is a draft, and any other reader of a post
    that is not published gets a 404. *)
Theorem C7_detail_view_visibility (user : RequestUser) (s : string) (w : World) :
  (forall p w', PostDetailView_get_object user s w = (Ok p, w') ->
     (status p = "published" \/ (status p = "draft" /\ user = AuthUser (author p)))
     /\ (user = AnonymousUser -> status p = "published")
     /\ (forall u, user = AuthUser u -> u <> author p -> status p = "published")
     /\ exists k row, posts w !! k = Some row /\ p = load_post (k, row))
  /\ (forall k row, slug_names s k row (posts w) ->
        (status row = "published" ->
           PostDetailView_get_object user s w = (Ok (load_post (k, row)), w))
        /\ (status row = "draft" -> user = AuthUser (author row) ->
              PostDetailView_get_object user s w = (Ok (load_post (k, row)), w))
        /\ (status row <> "published" -> user <> AuthUser (author row) ->
              PostDetailView_get_object user s w = (Raise Http404, w))).
Proof.
  split.
  - intros p w' H. apply PostDetailView_get_object_inv in H as [_ H].
    destruct (H p eq_refl) as (_ & Hv & Hrow). apply detail_visible_spec in Hv.
    split; [exact Hv|]. split; [|split; [|exact Hrow]].
    + intros ->. destruct Hv as [Hv|[_ Hv]]; [exact Hv | discriminate].
    + intros u -> Hu. destruct Hv as [Hv|[_ Hv]]; [exact Hv|].
      injection Hv as ->. contradiction.
  - intros k row Hnames. split; [|split].
    + intros Hp. apply (PostDetailView_get_object_found _ s k row w); [exact Hnames|].
      apply detail_visible_spec. left. exact Hp.
    + intros Hd ->. apply (PostDetailView_get_object_found _ s k row w); [exact Hnames|].
      apply detail_visible_spec. right. split; [exact Hd | reflexivity].
    + intros Hp Hu. apply (PostDetailView_get_object_hidden _ s k row w); [exact Hnames|].
      destruct (detail_visible user (load_post (k, row))) eqn:Hv; [|reflexivity].
      apply detail_visible_spec in Hv as [Hv|[_ Hv]]; simpl in Hv; contradiction.
Qed.

Lemma draft_world_slug : slug_names "hello-world-today" 1 Sample.stored_draft
                           (posts Sample.draft_world).
Proof.
  split; [reflexivity|]. split; [reflexivity|].
  intros k' row' Hrow' _. simpl in Hrow'.
  apply lookup_singleton_Some in Hrow' as [<- _]. reflexivity.
Qed.

Lemma C7_detail_view_visibility_witness :
  PostDetailView_get_object (AuthUser 7) "hello-world-today" Sample.draft_world
    = (Ok Sample.stored_draft, Sample.draft_world)
  /\ PostDetailView_get_object (AuthUser 8) "hello-world-today" Sample.draft_world
     = (Raise Http404, Sample.draft_world)
  /\ PostDetailView_get_object AnonymousUser "hello-world-today" Sample.draft_world
     = (Raise Http404, Sample.draft_world).
Proof.
  split; [|split].
  - destruct (C7_detail_view_visibility (AuthUser 7) "hello-world-today" Sample.draft_world)
      as [_ H].
    destruct (H 1 Sample.stored_draft draft_world_slug) as (_ & Hd & _).
    apply Hd; reflexivity.
  - destruct (C7_detail_view_visibility (AuthUser 8) "hello-world-today" Sample.draft_world)
      as [_ H].
    destruct (H 1 Sample.stored_draft draft_world_slug) as (_ & _ & Hh).
    apply Hh; discriminate.
  - destruct (C7_detail_view_visibility AnonymousUser "hello-world-today" Sample.draft_world)
      as [_ H].
    destruct (H 1 Sample.stored_draft draft_world_slug) as (_ & _ & Hh).
    apply Hh; discriminate.
Defined.

(** ** Likes of an anonymous reader *)

(** C9.  [user_has_liked] with the anonymous user is [false] whatever the
    like table holds, and it is a value for every input: it raises nothing.
    The detail page of an anonymous reader says so too. *)
Theorem C9_anonymous_user_has_not_liked (post_k : Z) (w : World) :
  user_has_liked post_k AnonymousUser w = false
  /\ (forall likes', user_has_liked post_k AnonymousUser (with_likes likes' w) = false)
  /\ (forall strip_tags slugify s ctx w',
        PostDetailView_get strip_tags slugify AnonymousUser s w = (Ok ctx, w') ->
        ctx_user_has_liked ctx = false).
Proof.
  split; [reflexivity|]. split; [reflexivity|].
  intros strip_tags slugify s ctx w' H.
  unfold PostDetailView_get, bind in H.
  destruct (PostDetailView_get_object AnonymousUser s w) as [[p|e] w1]; [|discriminate].
  unfold PostDetailView_get_context_data, bind in H.
  destruct (String.eqb (status p) "published").
  - destruct (increment_view_count strip_tags slugify p w1) as [[p'|e] w2]; [|discriminate].
    unfold get_world, ret in H. injection H as <- _. reflexivity.
  - unfold get_world, ret in H. injection H as <- _. reflexivity.
Qed.
(** ** The comment thread *)

Global Instance newest_first_trans : Transitive newest_first.
Proof. intros a b c. unfold newest_first. lia. Qed.
Global Instance newest_first_total : Total newest_first.
Proof. intros a b. unfold newest_first. lia. Qed.
Global Instance oldest_first_trans : Transitive oldest_first.
Proof. intros a b c. unfold oldest_first. lia. Qed.
Global Instance oldest_first_total : Total oldest_first.
Proof. intros a b. unfold oldest_first. lia. Qed.

(** An ordered query returns the rows of the table that pass its filter,
    each once, in the order asked for. *)
Lemma ordered_query_spec (R : relation (Z * Comment)) `{forall a b, Decision (R a b)}
    `{!Transitive R} `{!Total R}
    (P : Z * Comment -> Prop) `{forall kc, Decision (P kc)} (t : gmap Z Comment) :
  let result := merge_sort R (filter P (map_to_list t)) in
  (forall kc, kc ∈ result <-> t !! kc.1 = Some kc.2 /\ P kc)
  /\ NoDup result
  /\ StronglySorted R result.
Proof.
  intros result. subst result.
  pose proof (merge_sort_Permutation R (filter P (map_to_list t))) as Hperm.
  split; [|split].
  - intros [k c]. rewrite Hperm, list_elem_of_filter, elem_of_map_to_list. simpl. tauto.
  - rewrite Hperm. apply NoDup_filter, NoDup_map_to_list.
  - apply StronglySorted_merge_sort; assumption.
Qed.

(** C3 (amended).  The comments of the detail page are exactly the stored
    comments of the post that have no parent and are approved, each once,
    ordered newest first: every comment was created no earlier than the ones
    listed after it.  The replies of a comment are exactly the stored
    comments whose parent it is and that are approved, oldest first. *)
Theorem C3_thread_view_newest_first (post_k : Z) (w : World) :
  (forall kc, kc ∈ thread_view post_k w <->
     comments w !! kc.1 = Some kc.2
     /\ comment_post kc.2 = post_k /\ parent kc.2 = None /\ is_approved kc.2 = true)
  /\ NoDup (thread_view post_k w)
  /\ StronglySorted (fun a b => comment_created_at b.2 <= comment_created_at a.2)
       (thread_view post_k w)
  /\ (forall strip_tags slugify user s w0 ctx,
        PostDetailView_get strip_tags slugify user s w0 = (Ok ctx, w) ->
        ctx_comments ctx = thread_view (pk (ctx_object ctx)) w)
  /\ (forall comment_k,
        (forall kc, kc ∈ get_replies comment_k w <->
           comments w !! kc.1 = Some kc.2
           /\ parent kc.2 = Some comment_k /\ is_approved kc.2 = true)
        /\ NoDup (get_replies comment_k w)
        /\ StronglySorted (fun a b => comment_created_at a.2 <= comment_created_at b.2)
             (get_replies comment_k w)).
Proof.
  destruct (ordered_query_spec newest_first (top_level_approved post_k) (comments w))
    as (Hin & Hnd & Hs).
  split; [exact Hin|]. split; [exact Hnd|]. split; [exact Hs|]. split.
  - intros strip_tags slugify user s w0 ctx H.
    unfold PostDetailView_get, bind in H.
    destruct (PostDetailView_get_object user s w0) as [[p|e] w1]; [|discriminate].
    unfold PostDetailView_get_context_data, bind in H.
    destruct (String.eqb (status p) "published").
    + destruct (increment_view_count strip_tags slugify p w1) as [[p'|e] w2]; [|discriminate].
      unfold get_world, ret in H. injection H as <- <-. reflexivity.
    + unfold get_world, ret in H. injection H as <- <-. reflexivity.
  - intros comment_k.
    exact (ordered_query_spec oldest_first (approved_reply_of comment_k) (comments w)).
Qed.

(** C3 as stated fails on the order: the page lists the newer comment first. *)
Lemma C3_counterexample :
  thread_view 1 Sample.thread_world
    = [(2, Sample.newer_comment); (1, Sample.older_comment)]
  /\ comment_created_at Sample.older_comment < comment_created_at Sample.newer_comment
  /\ ~ Sorted (fun a b => comment_created_at a.2 <= comment_created_at b.2)
         (thread_view 1 Sample.thread_world)
  /\ get_replies 1 Sample.thread_world = [(3, Sample.reply_comment)].
Proof.
  split; [vm_compute; reflexivity|]. split; [vm_compute; reflexivity|]. split.
  - replace (thread_view 1 Sample.thread_world)
      with [(2, Sample.newer_comment); (1, Sample.older_comment)]
      by (vm_compute; reflexivity).
    intros Hs. apply Sorted_inv in Hs as [_ Hhd]. apply HdRel_inv in Hhd.
    simpl in Hhd. lia.
  - vm_compute. reflexivity.
Qed.
(** ** Comment validation *)

Lemma lstrip_length (s : string) : (String.length (Py.lstrip s) <= String.length s)%nat.
Proof.
  induction s as [|c s IH]; simpl; [lia|].
  destruct (Py.isspace c); simpl; lia.
Qed.

Lemma rstrip_length (s : string) : (String.length (Py.rstrip s) <= String.length s)%nat.
Proof.
  induction s as [|c s IH]; simpl; [lia|].
  destruct (Py.rstrip s); [destruct (Py.isspace c)|]; simpl in *; lia.
Qed.

Lemma strip_length (s : string) : Py.len (Py.strip s) <= Py.len s.
Proof.
  unfold Py.len, Py.strip.
  pose proof (rstrip_length (Py.lstrip s)). pose proof (lstrip_length s). lia.
Qed.

Lemma CommentForm_short (raw : string) :
  Py.len (Py.strip raw) < 10 -> CommentForm_is_valid raw = false.
Proof.
  intros Hlen. unfold CommentForm_is_valid, CommentForm_clean.
  destruct (Py.truthy (Py.strip raw)); simpl; [|reflexivity].
  destruct (has_null (Py.strip raw)); [reflexivity|].
  destruct (Z.ltb_spec (Py.len (Py.strip raw)) 10); [reflexivity | lia].
Qed.

Lemma CommentForm_long_enough (raw : string) :
  10 <= Py.len (Py.strip raw) -> has_null (Py.strip raw) = false ->
  CommentForm_clean raw = inr (Py.strip raw).
Proof.
  intros Hlen Hnull. unfold CommentForm_clean.
  destruct (Py.truthy (Py.strip raw)) eqn:Ht; simpl.
  - rewrite Hnull. destruct (Z.ltb_spec (Py.len (Py.strip raw)) 10); [lia | reflexivity].
  - apply truthy_false in Ht. rewrite Ht in Hlen. vm_compute in Hlen. contradiction.
Qed.

(** A request whose content does not validate writes nothing. *)
Lemma add_comment_invalid (req : CommentRequest) (s : string) (w : World) r w' :
  CommentForm_is_valid (req_content req) = false ->
  add_comment req s w = (r, w') ->
  w' = w.
Proof.
  intros Hinv H. unfold add_comment in H.
  destruct (req_user req) as [|u]; [unfold ret in H; congruence|].
  unfold bind in H.
  destruct (get_post_or_404 s w) as [[post|e] w1] eqn:Eg.
  - unfold get_post_or_404, bind, get_world in Eg. apply get_or_404_inv in Eg as [-> _].
    destruct (String.eqb (req_method req) "POST").
    + unfold CommentForm_is_valid in Hinv.
      destruct (CommentForm_clean (req_content req)); [|discriminate].
      unfold ret in H. congruence.
    + unfold ret in H. congruence.
  - unfold get_post_or_404, bind, get_world in Eg. apply get_or_404_inv in Eg as [-> _].
    congruence.
Qed.

(** C8 (amended).  A comment whose content is shorter than 10 characters is
    refused, as is any content that is shorter than 10 once the form has
    stripped the whitespace around it; a refused submission inserts nothing
    (the world is unchanged) and a logged-in [POST] of it is answered with
    the error message.  Content that holds at least 10 characters after the
    stripping, and no null character, is accepted, exactly 10 included, and
    the comment stored is the stripped text. *)
Theorem C8_comment_min_length (raw : string) :
  (Py.len raw < 10 -> CommentForm_is_valid raw = false)
  /\ (Py.len (Py.strip raw) < 10 -> CommentForm_is_valid raw = false)
  /\ (forall req s w r w',
        req_content req = raw -> CommentForm_is_valid raw = false ->
        add_comment req s w = (r, w') -> w' = w)
  /\ (forall u parent_id s k row w,
        CommentForm_is_valid raw = false -> slug_names s k row (posts w) ->
        add_comment (mkCommentRequest (AuthUser u) "POST" raw parent_id) s w
          = (Ok (RedirectDetail s (Some Msg_comment_error)), w))
  /\ (Py.len (Py.strip raw) = 10 -> has_null (Py.strip raw) = false ->
        CommentForm_clean raw = inr (Py.strip raw))
  /\ (10 <= Py.len (Py.strip raw) -> has_null (Py.strip raw) = false ->
        CommentForm_clean raw = inr (Py.strip raw)
        /\ forall u s k row w,
             slug_names s k row (posts w) -> comments w !! comment_seq w = None ->
             exists w',
               add_comment (mkCommentRequest (AuthUser u) "POST" raw None) s w
                 = (Ok (RedirectDetail s (Some Msg_comment_added)), w')
               /\ comments w'
                  = <[comment_seq w :=
                        mkComment k u (Py.strip raw) None true
                          (clock w (reads w)) (clock w (S (reads w)))]> (comments w)).
Proof.
  split; [|split; [|split; [|split; [|split]]]].
  - intros Hlen. apply CommentForm_short. pose proof (strip_length raw). lia.
  - apply CommentForm_short.
  - intros req s w r w' <- Hinv H. exact (add_comment_invalid req s w r w' Hinv H).
  - intros u parent_id s k row w Hinv Hnames. unfold add_comment, bind. simpl.
    rewrite (get_post_or_404_found s k row w Hnames). simpl.
    unfold CommentForm_is_valid in Hinv.
    destruct (CommentForm_clean raw); [|discriminate].
    destruct Hnames as (_ & <- & _). reflexivity.
  - intros Hlen. apply CommentForm_long_enough. lia.
  - intros Hlen Hnull. split; [apply CommentForm_long_enough; assumption|].
    intros u s k row w Hnames Hfresh. unfold add_comment, bind. simpl.
    rewrite (get_post_or_404_found s k row w Hnames). simpl.
    rewrite (CommentForm_long_enough raw Hlen Hnull).
    unfold ret, Comment_save_new, bind, now, next_comment_id, get_world, raise. simpl.
    case_decide as Hd; [|contradiction].
    destruct Hnames as (_ & <- & _). eexists. split; reflexivity.
Qed.

Lemma published_world_slug :
  slug_names "hello-world-today" 1 Sample.stored_published (posts Sample.published_world).
Proof.
  split; [reflexivity|]. split; [reflexivity|].
  intros k' row' Hrow' _. simpl in Hrow'.
  apply lookup_singleton_Some in Hrow' as [<- _]. reflexivity.
Qed.

Lemma C8_comment_min_length_witness :
  Py.len "0123456789" = 10
  /\ exists w',
       add_comment (mkCommentRequest (AuthUser 8) "POST" "0123456789" None)
         "hello-world-today" Sample.published_world
         = (Ok (RedirectDetail "hello-world-today" (Some Msg_comment_added)), w')
       /\ comments w' !! 1 = Some (mkComment 1 8 "0123456789" None true 1004 1005).
Proof.
  split; [reflexivity|].
  destruct (C8_comment_min_length "0123456789") as (_ & _ & _ & _ & _ & Hacc).
  destruct Hacc as [_ Hadd]; [vm_compute; discriminate | reflexivity |].
  destruct (Hadd 8 "hello-world-today" 1 Sample.stored_published Sample.published_world
              published_world_slug eq_refl) as (w' & E & Hc).
  exists w'. split; [exact E|]. rewrite Hc, lookup_insert_eq. reflexivity.
Defined.

(** C8 as stated fails on content of exactly 10 characters that owes its
    length to the whitespace around it: the form validates the stripped
    text, here the 2 characters "hi", refuses it and inserts nothing. *)
Lemma C8_counterexample :
  Py.len "hi        " = 10
  /\ CommentForm_clean "hi        " = inl Err_min_length
  /\ add_comment (mkCommentRequest (AuthUser 8) "POST" "hi        " None)
       "hello-world-today" Sample.published_world
     = (Ok (RedirectDetail "hello-world-today" (Some Msg_comment_error)),
        Sample.published_world).
Proof. repeat split; vm_compute; reflexivity. Qed.

(** ** Likes *)

Lemma Like_get_or_create_creates post_k user_k w :
  pair_free post_k user_k (likes w) -> likes w !! like_seq w = None ->
  Like_get_or_create post_k user_k w =
    (Ok (like_seq w, mkLike user_k post_k (clock w (reads w)), true),
     liked_world post_k user_k w).
Proof.
  intros Hfree Hfresh. unfold Like_get_or_create, bind, get_world.
  rewrite filter_none.
  - simpl. unfold Like_create, bind, now, next_like_id, get_world, put_likes, ret, raise.
    simpl. case_decide as Hd; [reflexivity|].
    exfalso. apply Hd. split; assumption.
  - intros [k l] Hin Hof. apply elem_of_map_to_list in Hin.
    exact (Hfree k l Hin Hof).
Qed.

Lemma Like_get_or_create_finds post_k user_k w k0 l0 :
  likes w !! k0 = Some l0 -> like_of post_k user_k (k0, l0) ->
  (forall k' l', likes w !! k' = Some l' -> like_of post_k user_k (k', l') -> k' = k0) ->
  Like_get_or_create post_k user_k w = (Ok (k0, l0, false), w).
Proof.
  intros Hrow Hof Huniq. unfold Like_get_or_create, bind, get_world.
  rewrite (filter_only _ _ (k0, l0)).
  - reflexivity.
  - apply NoDup_map_to_list.
  - apply elem_of_map_to_list. exact Hrow.
  - exact Hof.
  - intros [k' l'] Hin Hof'. apply elem_of_map_to_list in Hin.
    assert (k' = k0) as -> by (apply (Huniq k' l'); assumption).
    congruence.
Qed.

Lemma like_count_liked post_k user_k w :
  likes w !! like_seq w = None ->
  get_like_count post_k (liked_world post_k user_k w) = get_like_count post_k w + 1.
Proof.
  intros Hfresh. unfold get_like_count, likes_of_post, liked_world. simpl.
  rewrite map_filter_insert_True by reflexivity.
  rewrite map_size_insert_None; [lia|].
  apply map_lookup_filter_None. left. exact Hfresh.
Qed.

Lemma like_count_unliked post_k w k0 l0 :
  likes w !! k0 = Some l0 -> like_post_id l0 = post_k ->
  get_like_count post_k (unliked_world k0 w) = get_like_count post_k w - 1.
Proof.
  intros Hrow Hp. unfold get_like_count, likes_of_post, unliked_world. simpl.
  rewrite map_filter_delete.
  assert (filter (fun kv : Z * Like => like_post_id kv.2 = post_k) (likes w) !! k0 = Some l0) as Hf
    by (apply map_lookup_filter_Some; split; assumption).
  rewrite map_size_delete_Some by eauto.
  assert (size (filter (fun kv : Z * Like => like_post_id kv.2 = post_k) (likes w)) <> 0%nat).
  { intros Hz. apply map_size_empty_inv in Hz. rewrite Hz in Hf.
    rewrite lookup_empty in Hf. discriminate. }
  lia.
Qed.

Lemma user_has_liked_true post_k user_k w :
  user_has_liked post_k (AuthUser user_k) w = true <->
  exists k l, likes w !! k = Some l /\ like_of post_k user_k (k, l).
Proof. unfold user_has_liked. rewrite bool_decide_eq_true. reflexivity. Qed.

Lemma pair_free_or_liked post_k user_k (t : gmap Z Like) :
  pair_free post_k user_k t \/
  exists k l, t !! k = Some l /\ like_of post_k user_k (k, l).
Proof.
  destruct (decide (pair_free post_k user_k t)) as [Hf|Hn]; [left; exact Hf|].
  right. apply map_not_Forall in Hn; [|apply _].
  destruct Hn as (k & l & Hrow & Hnn). exists k, l. split; [exact Hrow|].
  apply dec_stable. exact Hnn.
Qed.

Section LikeViews.

Variables (u : Z) (s : string) (k : Z) (row : Post) (w : World).
Hypothesis Hnames : slug_names s k row (posts w).

Lemma slug_names_slug : slug row = s.
Proof. destruct Hnames as (_ & Hs & _). exact Hs. Qed.

Lemma like_post_likes :
  pair_free k u (likes w) -> likes w !! like_seq w = None ->
  like_post (AuthUser u) s w
    = (Ok (RedirectDetail s (Some Msg_post_liked)), liked_world k u w)
  /\ ajax_like_post "POST" (AuthUser u) s w
     = (Ok (JsonLike true (get_like_count k w + 1) Msg_post_liked), liked_world k u w).
Proof.
  intros Hfree Hfresh. unfold like_post, ajax_like_post, bind. simpl.
  rewrite (get_post_or_404_found s k row w Hnames).
  change (pk (load_post (k, row))) with k.
  rewrite (Like_get_or_create_creates k u w Hfree Hfresh). simpl.
  unfold ret, get_world. simpl. rewrite slug_names_slug.
  rewrite (like_count_liked k u w Hfresh). split; reflexivity.
Qed.

Lemma like_post_unlikes k0 l0 :
  likes w !! k0 = Some l0 -> like_of k u (k0, l0) ->
  (forall k' l', likes w !! k' = Some l' -> like_of k u (k', l') -> k' = k0) ->
  like_post (AuthUser u) s w
    = (Ok (RedirectDetail s (Some Msg_post_unliked)), unliked_world k0 w)
  /\ ajax_like_post "POST" (AuthUser u) s w
     = (Ok (JsonLike false (get_like_count k w - 1) Msg_post_unliked), unliked_world k0 w).
Proof.
  intros Hrow Hof Huniq. unfold like_post, ajax_like_post, bind. simpl.
  rewrite (get_post_or_404_found s k row w Hnames).
  change (pk (load_post (k, row))) with k.
  rewrite (Like_get_or_create_finds k u w k0 l0 Hrow Hof Huniq). simpl.
  unfold Like_delete, bind, get_world, put_likes, ret. simpl. rewrite slug_names_slug.
  fold (unliked_world k0 w).
  rewrite (like_count_unliked k w k0 l0 Hrow (proj1 Hof)). split; reflexivity.
Qed.

End LikeViews.

Lemma like_count_of_likes post_k w w' :
  likes w' = likes w -> get_like_count post_k w' = get_like_count post_k w.
Proof. unfold get_like_count. intros ->. reflexivity. Qed.

Lemma user_has_liked_of_likes post_k user w w' :
  likes w' = likes w -> user_has_liked post_k user w' = user_has_liked post_k user w.
Proof. unfold user_has_liked. intros ->. reflexivity. Qed.

(** C6.  For a stored post and a logged-in user, with a like table that meets
    its uniqueness constraint, two calls of the like view in a row both
    complete and bring the like count of the post, and whether the user has
    liked it, back to what they were; posts and comments are untouched.
    When no like of the pair exists, the first call creates it and reports
    "liked" (the count is one higher and the user has liked the post), the
    second deletes it and reports "unliked", and the like table is the
    original one again.  The AJAX view goes through the same worlds and
    reports the like counts. *)
Theorem C6_toggle_like_twice (u : Z) (s : string) (k : Z) (row : Post) (w : World) :
  slug_names s k row (posts w) ->
  likes_unique (likes w) ->
  likes w !! like_seq w = None ->
  exists r1 w1 r2 w2,
    like_post (AuthUser u) s w = (Ok r1, w1)
    /\ like_post (AuthUser u) s w1 = (Ok r2, w2)
    /\ get_like_count k w2 = get_like_count k w
    /\ user_has_liked k (AuthUser u) w2 = user_has_liked k (AuthUser u) w
    /\ posts w2 = posts w /\ comments w2 = comments w
    /\ (pair_free k u (likes w) ->
          r1 = RedirectDetail s (Some Msg_post_liked)
          /\ r2 = RedirectDetail s (Some Msg_post_unliked)
          /\ get_like_count k w1 = get_like_count k w + 1
          /\ user_has_liked k (AuthUser u) w1 = true
          /\ likes w2 = likes w)
    /\ exists j1 j2,
         ajax_like_post "POST" (AuthUser u) s w = (Ok j1, w1)
         /\ ajax_like_post "POST" (AuthUser u) s w1 = (Ok j2, w2)
         /\ (pair_free k u (likes w) ->
               j1 = JsonLike true (get_like_count k w + 1) Msg_post_liked
               /\ j2 = JsonLike false (get_like_count k w) Msg_post_unliked).
Proof.
  intros Hnames Huniq Hfresh.
  destruct (pair_free_or_liked k u (likes w)) as [Hfree|(k0 & l0 & Hrow & Hof)].
  - (* no like yet: create, then delete *)
    set (l := mkLike u k (clock w (reads w))).
    set (w1 := liked_world k u w).
    assert (slug_names s k row (posts w1)) as Hnames1 by exact Hnames.
    assert (likes w1 !! like_seq w = Some l) as Hrow1 by apply lookup_insert_eq.
    assert (like_of k u (like_seq w, l)) as Hof1 by (split; reflexivity).
    assert (forall k' l', likes w1 !! k' = Some l' -> like_of k u (k', l') ->
                          k' = like_seq w) as Huniq1.
    { intros k' l' Hk' Hof'. simpl in Hk'.
      apply lookup_insert_Some in Hk' as [[<- _]|[_ Hk']]; [reflexivity|].
      exfalso. exact (Hfree k' l' Hk' Hof'). }
    destruct (like_post_likes u s k row w Hnames Hfree Hfresh) as [E1 A1].
    destruct (like_post_unlikes u s k row w1 Hnames1 (like_seq w) l Hrow1 Hof1 Huniq1)
      as [E2 A2].
    assert (likes (unliked_world (like_seq w) w1) = likes w) as Hback.
    { simpl. rewrite delete_insert_eq. apply delete_id. exact Hfresh. }
    exists (RedirectDetail s (Some Msg_post_liked)), w1,
           (RedirectDetail s (Some Msg_post_unliked)), (unliked_world (like_seq w) w1).
    split; [exact E1|]. split; [exact E2|].
    split; [apply like_count_of_likes; exact Hback|].
    split; [apply user_has_liked_of_likes; exact Hback|].
    split; [reflexivity|]. split; [reflexivity|]. split.
    + intros _. split; [reflexivity|]. split; [reflexivity|].
      split; [apply like_count_liked; exact Hfresh|].
      split; [|exact Hback].
      apply user_has_liked_true. exists (like_seq w), l. split; assumption.
    + eexists _, _. split; [exact A1|]. split; [exact A2|].
      intros _. split; [reflexivity|].
      unfold w1. rewrite (like_count_liked k u w Hfresh).
      f_equal. lia.
  - (* a like exists: delete, then create *)
    set (w1 := unliked_world k0 w).
    assert (forall k' l', likes w !! k' = Some l' -> like_of k u (k', l') -> k' = k0) as Huniq0.
    { intros k' l' Hk' [Hp' Hu']. destruct Hof as [Hp Hu]. simpl in *.
      apply (Huniq k' l' k0 l0); congruence. }
    assert (slug_names s k row (posts w1)) as Hnames1 by exact Hnames.
    assert (pair_free k u (likes w1)) as Hfree1.
    { intros k' l' Hk' Hof'. simpl in Hk'.
      apply lookup_delete_Some in Hk' as [Hne Hk'].
      apply Hne. symmetry. exact (Huniq0 k' l' Hk' Hof'). }
    assert (likes w1 !! like_seq w1 = None) as Hfresh1.
    { simpl. apply lookup_delete_None. right. exact Hfresh. }
    destruct (like_post_unlikes u s k row w Hnames k0 l0 Hrow Hof Huniq0) as [E1 A1].
    destruct (like_post_likes u s k row w1 Hnames1 Hfree1 Hfresh1) as [E2 A2].
    exists (RedirectDetail s (Some Msg_post_unliked)), w1,
           (RedirectDetail s (Some Msg_post_liked)), (liked_world k u w1).
    split; [exact E1|]. split; [exact E2|]. split.
    { rewrite (like_count_liked k u w1 Hfresh1). unfold w1.
      rewrite (like_count_unliked k w k0 l0 Hrow (proj1 Hof)). lia. }
    split.
    { transitivity true; [|symmetry].
      - apply user_has_liked_true.
        exists (like_seq w1), (mkLike u k (clock w1 (reads w1))).
        split; [apply lookup_insert_eq | split; reflexivity].
      - apply user_has_liked_true. exists k0, l0. split; assumption. }
    split; [reflexivity|]. split; [reflexivity|]. split.
    + intros Hfree. exfalso. exact (Hfree k0 l0 Hrow Hof).
    + eexists _, _. split; [exact A1|]. split; [exact A2|].
      intros Hfree. exfalso. exact (Hfree k0 l0 Hrow Hof).
Qed.

Lemma C6_toggle_like_twice_witness :
  exists w1 w2,
    like_post (AuthUser 8) "hello-world-today" Sample.published_world
      = (Ok (RedirectDetail "hello-world-today" (Some Msg_post_liked)), w1)
    /\ like_post (AuthUser 8) "hello-world-today" w1
       = (Ok (RedirectDetail "hello-world-today" (Some Msg_post_unliked)), w2)
    /\ get_like_count 1 Sample.published_world = 0
    /\ get_like_count 1 w1 = 1
    /\ get_like_count 1 w2 = 0
    /\ likes w2 = likes Sample.published_world.
Proof.
  destruct (C6_toggle_like_twice 8 "hello-world-today" 1 Sample.stored_published
              Sample.published_world published_world_slug)
    as (r1 & w1 & r2 & w2 & E1 & E2 & Hcount & _ & _ & _ & Hnew & _).
  - intros k1 l1 k2 l2 H1. simpl in H1. rewrite lookup_empty in H1. discriminate.
  - reflexivity.
  - destruct Hnew as (-> & -> & Hc1 & _ & Hback); [apply map_Forall_empty|].
    exists w1, w2. split; [exact E1|]. split; [exact E2|].
    split; [reflexivity|]. split; [rewrite Hc1; reflexivity|].
    split; [rewrite Hcount; reflexivity | exact Hback].
Defined.

(** ** Creation times along a history *)

Lemma bind_inv {A B} (m : M A) (k : A -> M B) (w : World) o w' :
  bind m k w = (o, w') ->
  (exists a w1, m w = (Ok a, w1) /\ k a w1 = (o, w'))
  \/ (exists e, m w = (Raise e, w') /\ o = Raise e).
Proof.
  unfold bind. destruct (m w) as [[a|e] w1]; intros H.
  - left. exists a, w1. split; [reflexivity | exact H].
  - right. exists e. injection H as <- <-. split; reflexivity.
Qed.

Lemma bind_ret_inv {A B} (m : M A) (b : B) (w : World) o w' :
  (m ;;; ret b) w = (o, w') ->
  exists o1, m w = (o1, w') /\ (forall p, o = Ok p -> p = b).
Proof.
  intros H. apply bind_inv in H as [(a & w1 & H1 & H2)|(e & H1 & ->)].
  - unfold ret in H2. injection H2 as <- <-. exists (Ok a). split; [exact H1|].
    intros p Hp. congruence.
  - exists (Raise e). split; [exact H1|]. intros p Hp. discriminate.
Qed.

Lemma bind_get_world {B} (k : World -> M B) (w : World) :
  bind get_world k w = k w w.
Proof. reflexivity. Qed.

Lemma pre_save_updated_at_run (self : Post) (w : World) :
  pre_save_updated_at self w
  = (Ok (set_updated_at (Some (clock w (reads w))) self), with_reads (S (reads w)) w).
Proof. reflexivity. Qed.

Lemma insert_new_run (k : option Z) (self : Post) (w : World) :
  insert_new k self w =
    let stamped := set_updated_at (Some (clock w (S (reads w))))
                     (set_created_at (Some (clock w (reads w))) self) in
    match k with
    | Some k => (do_insert k stamped ;;; ret stamped) (with_reads (S (S (reads w))) w)
    | None =>
        (do_insert (post_seq w) (set_post_id (Some (post_seq w)) stamped) ;;;
         ret (set_post_id (Some (post_seq w)) stamped))
          (with_post_seq (post_seq w + 1) (with_reads (S (S (reads w))) w))
    end.
Proof. destruct k; reflexivity. Qed.

Lemma created_by_later (t : gmap Z Post) (c : nat -> Z) (n m : nat) :
  monotone c -> (n <= m)%nat -> created_by t c n -> created_by t c m.
Proof.
  intros Hmono Hnm H k row Hrow. destruct (H k row Hrow) as (a & Ha & Hle).
  exists a. split; [exact Ha|]. specialize (Hmono n m Hnm). lia.
Qed.

Lemma created_by_insert (t : gmap Z Post) (c : nat -> Z) (n : nat) (k : Z) (row : Post) :
  created_by t c n -> (exists a, created_at row = Some a /\ a <= c n) ->
  created_by (<[k := row]> t) c n.
Proof.
  intros H Hrow k' row' Hk'.
  apply lookup_insert_Some in Hk' as [[_ <-]|[_ Hk']]; [exact Hrow|].
  exact (H k' row' Hk').
Qed.

Lemma write_fields_created_at (fs : list Field) (self row : Post) :
  created_at (write_fields fs self row) = created_at row
  \/ created_at (write_fields fs self row) = created_at self.
Proof.
  induction fs as [|f fs IH]; [left; reflexivity|]. simpl.
  destruct f; try exact IH. right. reflexivity.
Qed.

(** An [UPDATE] from an instance that carries the creation time of the row. *)
Lemma do_update_created_in_past k fs s row w o w' :
  do_update k fs s row w = (o, w') ->
  created_in_past w -> posts w !! k = Some row -> created_at s = created_at row ->
  created_in_past w' /\ clock w' = clock w /\ reads w' = reads w.
Proof.
  unfold do_update, bind, get_world, put_posts, raise. intros H Hinv Hrow Hs.
  case_decide as Hd; injection H as <- <-; [|auto].
  split; [|split; reflexivity].
  unfold created_in_past. simpl. apply created_by_insert; [exact Hinv|].
  destruct Hd as [(Hc & _) _].
  change (is_Some (created_at (write_fields fs s row))) in Hc.
  assert (created_at (write_fields fs s row) = created_at row) as E.
  { destruct (write_fields_created_at fs s row) as [E|E]; congruence. }
  destruct (Hinv k row Hrow) as (a & Ha & Hle). exists a.
  split; [|exact Hle].
  change (created_at (write_fields fs s row) = Some a). congruence.
Qed.

(** An [INSERT] of an instance stamped with a reading already taken. *)
Lemma do_insert_created_in_past k s w o w' :
  do_insert k s w = (o, w') ->
  created_in_past w -> (exists a, created_at s = Some a /\ a <= clock w (reads w)) ->
  created_in_past w' /\ clock w' = clock w /\ reads w' = reads w.
Proof.
  unfold do_insert, bind, get_world, put_posts, raise. intros H Hinv Hs.
  case_decide as Hd; injection H as <- <-; [|auto].
  split; [|split; reflexivity].
  unfold created_in_past. simpl. apply created_by_insert; [exact Hinv|].
  destruct Hs as (a & Ha & Hle). exists a. split; [|exact Hle].
  destruct s; exact Ha.
Qed.

Lemma insert_new_created_in_past k s w o w' :
  insert_new k s w = (o, w') ->
  monotone (clock w) -> created_in_past w ->
  created_in_past w' /\ clock w' = clock w /\ (reads w <= reads w')%nat.
Proof.
  intros H Hmono Hinv. rewrite insert_new_run in H. cbv zeta in H.
  assert (created_by (posts w) (clock w) (S (S (reads w)))) as Hinv2.
  { apply (created_by_later _ _ (reads w)); [assumption | lia | exact Hinv]. }
  destruct k as [k|]; apply bind_ret_inv in H as (o1 & H & _);
    apply do_insert_created_in_past in H as (Hi & Hc & Hr).
  - split; [exact Hi|]. split; [exact Hc|]. rewrite Hr. simpl. lia.
  - exact Hinv2.
  - exists (clock w (reads w)). split; [reflexivity|]. simpl. apply Hmono. lia.
  - split; [exact Hi|]. split; [exact Hc|]. rewrite Hr. simpl. lia.
  - exact Hinv2.
  - exists (clock w (reads w)). split; [reflexivity|]. simpl. apply Hmono. lia.
Qed.

(** What the parent's [save] does to the creation times of the table. *)
Lemma Model_save_created_in_past uf self w o w' :
  Model_save uf self w = (o, w') ->
  monotone (clock w) -> created_in_past w -> carries_created_at self w ->
  created_in_past w' /\ clock w' = clock w /\ (reads w <= reads w')%nat.
Proof.
  intros H Hmono Hinv Hcar.
  assert (created_in_past (with_reads (S (reads w)) w)) as Hinv1.
  { apply (created_by_later _ _ (reads w)); [assumption | simpl; lia | exact Hinv]. }
  unfold Model_save in H. destruct uf as [[|f fs]|].
  - unfold ret in H. injection H as <- <-. auto.
  - destruct (post_id self) as [k|] eqn:Hid.
    2:{ unfold raise in H. injection H as <- <-. auto. }
    apply bind_inv in H as [(s1 & w1 & H1 & H2)|(e & H1 & ->)].
    + rewrite bind_get_world in H2.
      destruct (decide (F_updated_at ∈ f :: fs)).
      * rewrite pre_save_updated_at_run in H1. injection H1 as <- <-.
        change (posts (with_reads (S (reads w)) w)) with (posts w) in H2.
        destruct (posts w !! k) as [row|] eqn:Hrow.
        -- apply bind_ret_inv in H2 as (o1 & H2 & _).
           apply do_update_created_in_past in H2 as (Hi & Hc & Hr);
             [|exact Hinv1|exact Hrow|exact (Hcar k row Hid Hrow)].
           split; [exact Hi|]. split; [exact Hc|]. rewrite Hr. simpl. lia.
        -- unfold raise in H2. injection H2 as <- <-.
           split; [exact Hinv1|]. split; [reflexivity | simpl; lia].
      * unfold ret in H1. injection H1 as <- <-.
        destruct (posts w !! k) as [row|] eqn:Hrow.
        -- apply bind_ret_inv in H2 as (o1 & H2 & _).
           apply do_update_created_in_past in H2 as (Hi & Hc & Hr);
             [|exact Hinv|exact Hrow|exact (Hcar k row Hid Hrow)].
           split; [exact Hi|]. split; [exact Hc|]. rewrite Hr. lia.
        -- unfold raise in H2. injection H2 as <- <-. auto.
    + destruct (decide (F_updated_at ∈ f :: fs)).
      * rewrite pre_save_updated_at_run in H1. discriminate.
      * unfold ret in H1. discriminate.
  - destruct (post_id self) as [k|] eqn:Hid.
    2:{ exact (insert_new_created_in_past _ _ _ _ _ H Hmono Hinv). }
    apply bind_inv in H as [(s1 & w1 & H1 & H2)|(e & H1 & ->)].
    2:{ rewrite pre_save_updated_at_run in H1. discriminate. }
    rewrite pre_save_updated_at_run in H1. injection H1 as <- <-.
    rewrite bind_get_world in H2.
    change (posts (with_reads (S (reads w)) w)) with (posts w) in H2.
    destruct (posts w !! k) as [row|] eqn:Hrow.
    + apply bind_ret_inv in H2 as (o1 & H2 & _).
      apply do_update_created_in_past in H2 as (Hi & Hc & Hr);
        [|exact Hinv1|exact Hrow|exact (Hcar k row Hid Hrow)].
      split; [exact Hi|]. split; [exact Hc|]. rewrite Hr. simpl. lia.
    + apply insert_new_created_in_past in H2 as (Hi & Hc & Hr);
        [|exact Hmono|exact Hinv1].
      split; [exact Hi|]. split; [exact Hc|]. simpl in Hr. lia.
Qed.

(** A full save with no row under the key of the instance adds the row, and
    stamps [created_at] with a reading it takes. *)
Lemma Model_save_insert_stamps self w p w' :
  Model_save None self w = (Ok p, w') ->
  (forall k, post_id self = Some k -> posts w !! k = None) ->
  exists i, (reads w <= i)%nat /\ created_at p = Some (clock w i).
Proof.
  intros H Hnone. unfold Model_save in H.
  destruct (post_id self) as [k|] eqn:Hid.
  - apply bind_inv in H as [(s1 & w1 & H1 & H2)|(e & _ & He)]; [|discriminate].
    rewrite pre_save_updated_at_run in H1. injection H1 as <- <-.
    rewrite bind_get_world in H2.
    change (posts (with_reads (S (reads w)) w)) with (posts w) in H2.
    rewrite (Hnone k eq_refl) in H2. rewrite insert_new_run in H2. cbv zeta in H2.
    apply bind_ret_inv in H2 as (o1 & _ & Hp). rewrite (Hp p eq_refl).
    exists (S (reads w)). split; [lia | reflexivity].
  - rewrite insert_new_run in H. cbv zeta in H.
    apply bind_ret_inv in H as (o1 & _ & Hp). rewrite (Hp p eq_refl).
    exists (reads w). split; [lia | reflexivity].
Qed.

Section History.

Variable strip_tags : string -> string.
Variable slugify : string -> string.

Lemma Post_save_created_in_past uf self w o w' :
  Post_save strip_tags slugify uf self w = (o, w') ->
  monotone (clock w) -> created_in_past w -> carries_created_at self w ->
  created_in_past w' /\ clock w' = clock w /\ (reads w <= reads w')%nat.
Proof.
  intros H Hmono Hinv Hcar. rewrite Post_save_eq in H.
  pose proof (derive_fields_frame strip_tags slugify (clock w (reads w)) self) as F.
  cbv zeta in F. destruct F as (Fid & _ & _ & _ & _ & _ & _ & _ & Fca & _).
  apply Model_save_created_in_past in H.
  - destruct H as (Hi & Hc & Hr). split; [exact Hi|].
    destruct (publishes self); simpl in Hc, Hr; split; first [exact Hc | lia].
  - destruct (publishes self); exact Hmono.
  - destruct (publishes self); [|exact Hinv].
    apply (created_by_later _ _ (reads w)); [exact Hmono | simpl; lia | exact Hinv].
  - intros k row Hk Hrow. rewrite Fca. rewrite Fid in Hk.
    apply (Hcar k row Hk). destruct (publishes self); exact Hrow.
Qed.

Lemma increment_view_count_created_in_past self w o w' :
  increment_view_count strip_tags slugify self w = (o, w') ->
  monotone (clock w) -> created_in_past w -> carries_created_at self w ->
  created_in_past w' /\ clock w' = clock w /\ (reads w <= reads w')%nat.
Proof.
  intros H Hmono Hinv Hcar. unfold increment_view_count in H.
  apply Post_save_created_in_past in H; [exact H | exact Hmono | exact Hinv |].
  intros k row Hk Hrow. exact (Hcar k row Hk Hrow).
Qed.

(** The detail view saves the instance it has read from the table. *)
Lemma PostDetailView_get_created_in_past user s w o w' :
  PostDetailView_get strip_tags slugify user s w = (o, w') ->
  monotone (clock w) -> created_in_past w ->
  created_in_past w' /\ clock w' = clock w /\ (reads w <= reads w')%nat.
Proof.
  intros H Hmono Hinv. unfold PostDetailView_get in H.
  apply bind_inv in H as [(p & w1 & H1 & H2)|(e & H1 & ->)].
  2:{ apply PostDetailView_get_object_inv in H1 as [-> _]. auto. }
  apply PostDetailView_get_object_inv in H1 as [-> Hp].
  destruct (Hp p eq_refl) as (_ & _ & k & row & Hrow & ->).
  unfold PostDetailView_get_context_data in H2.
  assert (forall o2 w2,
            (if String.eqb (status (load_post (k, row))) "published"
             then increment_view_count strip_tags slugify (load_post (k, row))
             else ret (load_post (k, row))) w = (o2, w2) ->
            created_in_past w2 /\ clock w2 = clock w /\ (reads w <= reads w2)%nat) as Hview.
  { intros o2 w2 Hv. destruct (String.eqb (status (load_post (k, row))) "published").
    - apply increment_view_count_created_in_past in Hv; [exact Hv | exact Hmono | exact Hinv |].
      intros k' row' Hk' Hrow'. injection Hk' as <-.
      assert (row' = row) as -> by congruence. reflexivity.
    - unfold ret in Hv. injection Hv as <- <-. auto. }
  apply bind_inv in H2 as [(p2 & w2 & H3 & H4)|(e & H3 & ->)].
  - rewrite bind_get_world in H4. unfold ret in H4. injection H4 as <- <-.
    exact (Hview _ _ H3).
  - exact (Hview _ _ H3).
Qed.

End History.

(** *** The views that write other tables *)

Lemma only_later_ret {A} (a : A) : only_later (ret a).
Proof. intros w o w' H. unfold ret in H. injection H as <- <-. auto. Qed.

Lemma only_later_raise {A} (e : Exc) : only_later (@raise A e).
Proof. intros w o w' H. unfold raise in H. injection H as <- <-. auto. Qed.

Lemma only_later_bind {A B} (m : M A) (k : A -> M B) :
  only_later m -> (forall a, only_later (k a)) -> only_later (bind m k).
Proof.
  intros Hm Hk w o w' H.
  apply bind_inv in H as [(a & w1 & H1 & H2)|(e & H1 & ->)].
  - destruct (Hm _ _ _ H1) as (Hp & Hc & Hr).
    destruct (Hk a _ _ _ H2) as (Hp' & Hc' & Hr').
    split; [congruence|]. split; [congruence | lia].
  - exact (Hm _ _ _ H1).
Qed.

Lemma only_later_get_world : only_later get_world.
Proof. intros w o w' H. unfold get_world in H. injection H as <- <-. auto. Qed.

Lemma only_later_now : only_later now.
Proof.
  intros w o w' H. unfold now in H. injection H as <- <-.
  split; [reflexivity|]. split; [reflexivity | simpl; lia].
Qed.

Lemma only_later_get_or_404 {A} (l : list A) : only_later (get_or_404 l).
Proof. intros w o w' H. apply get_or_404_inv in H as [-> _]. auto. Qed.

Lemma only_later_get_post_or_404 s : only_later (get_post_or_404 s).
Proof.
  unfold get_post_or_404. apply only_later_bind; [apply only_later_get_world|].
  intros w. apply only_later_get_or_404.
Qed.

Lemma only_later_put_likes t : only_later (put_likes t).
Proof. intros w o w' H. unfold put_likes in H. injection H as <- <-. auto. Qed.

Lemma only_later_next_like_id : only_later next_like_id.
Proof. intros w o w' H. unfold next_like_id in H. injection H as <- <-. auto. Qed.

Lemma only_later_next_comment_id : only_later next_comment_id.
Proof. intros w o w' H. unfold next_comment_id in H. injection H as <- <-. auto. Qed.

Create HintDb later discriminated.
#[local] Hint Resolve only_later_ret only_later_raise only_later_get_world only_later_now
  only_later_get_or_404 only_later_get_post_or_404 only_later_put_likes
  only_later_next_like_id only_later_next_comment_id : later.

Ltac later_step :=
  first [ solve [auto with later]
        | apply only_later_bind; [|intros ?] ].

Lemma only_later_Like_create post_k user_k : only_later (Like_create post_k user_k).
Proof.
  unfold Like_create. do 3 later_step; try later_step.
  case_decide; repeat later_step.
Qed.
#[local] Hint Resolve only_later_Like_create : later.


Lemma only_later_Like_get_or_create post_k user_k :
  only_later (Like_get_or_create post_k user_k).
Proof.
  unfold Like_get_or_create. later_step; [later_step|].
  destruct (queryset_get _); repeat later_step.
Qed.
#[local] Hint Resolve only_later_Like_get_or_create : later.


Lemma only_later_Like_delete k : only_later (Like_delete k).
Proof. unfold Like_delete. repeat later_step. Qed.
#[local] Hint Resolve only_later_Like_delete : later.


Lemma only_later_like_post user s : only_later (like_post user s).
Proof.
  unfold like_post. destruct user; [later_step|].
  do 2 (later_step; [later_step|]).
  destruct a0 as [like created]. destruct (negb created); repeat later_step.
Qed.

Lemma only_later_ajax_like_post method user s : only_later (ajax_like_post method user s).
Proof.
  unfold ajax_like_post. destruct (negb _); [later_step|].
  destruct user; [later_step|].
  do 2 (later_step; [later_step|]).
  destruct a0 as [like created]. later_step.
  - destruct (negb created); repeat later_step.
  - repeat later_step.
Qed.

Lemma only_later_Comment_save_new post_k user_k text parent_k :
  only_later (Comment_save_new post_k user_k text parent_k).
Proof.
  unfold Comment_save_new. do 4 (later_step; [later_step|]).
  case_decide as Hfree; [|later_step].
  intros w o w' E. injection E as <- <-. auto.
Qed.
#[local] Hint Resolve only_later_Comment_save_new : later.


Lemma only_later_get_comment_or_404 k : only_later (get_comment_or_404 k).
Proof.
  unfold get_comment_or_404. later_step; [later_step|].
  destruct (comments _ !! k); later_step.
Qed.
#[local] Hint Resolve only_later_get_comment_or_404 : later.


Lemma only_later_add_comment req s : only_later (add_comment req s).
Proof.
  unfold add_comment. destruct (req_user req); [later_step|].
  later_step; [later_step|].
  destruct (String.eqb _ _); [|later_step].
  destruct (CommentForm_clean _); [later_step|].
  later_step.
  - destruct (req_parent_id req); repeat later_step.
  - repeat later_step.
Qed.

Lemma only_later_created_in_past {A} (m : M A) w o w' :
  only_later m -> m w = (o, w') -> monotone (clock w) -> created_in_past w ->
  created_in_past w' /\ clock w' = clock w.
Proof.
  intros Hm H Hmono Hinv. destruct (Hm _ _ _ H) as (Hp & Hc & Hr).
  split; [|exact Hc]. unfold created_in_past. rewrite Hp, Hc.
  exact (created_by_later _ _ _ _ Hmono Hr Hinv).
Qed.

(** *** Every world of a history *)

Section Reaches.

Variable strip_tags : string -> string.
Variable slugify : string -> string.

Lemma step_created_in_past w w' :
  step strip_tags slugify w w' -> monotone (clock w) -> created_in_past w ->
  created_in_past w' /\ clock w' = clock w.
Proof.
  intros Hstep Hmono Hinv. destruct Hstep as
    [w t w' H | uf self w o w' Hcar H | self w o w' Hcar H | user s w o w' H
    | user s w o w' H | method user s w o w' H | req s w o w' H | w w' H].
  - exact (only_later_created_in_past _ _ _ _ only_later_now H Hmono Hinv).
  - destruct (Post_save_created_in_past _ _ _ _ _ _ _ H Hmono Hinv Hcar) as (Hi & Hc & _).
    auto.
  - destruct (increment_view_count_created_in_past _ _ _ _ _ _ H Hmono Hinv Hcar)
      as (Hi & Hc & _). auto.
  - destruct (PostDetailView_get_created_in_past _ _ _ _ _ _ _ H Hmono Hinv)
      as (Hi & Hc & _). auto.
  - exact (only_later_created_in_past _ _ _ _ (only_later_like_post _ _) H Hmono Hinv).
  - exact (only_later_created_in_past _ _ _ _ (only_later_ajax_like_post _ _ _) H Hmono Hinv).
  - exact (only_later_created_in_past _ _ _ _ (only_later_add_comment _ _) H Hmono Hinv).
  - destruct H as (Hc & Hr & Hrows). split; [|exact Hc].
    intros k row' Hrow'. destruct (Hrows k row' Hrow') as (row & Hrow & E).
    destruct (Hinv k row Hrow) as (a & Ha & Hle). exists a.
    split; [congruence|]. rewrite Hc. specialize (Hmono _ _ Hr). lia.
Qed.

(** In every world the site reaches from an empty post table, under a clock
    that never runs backwards, no stored post was created later than the
    clock reads now. *)
Lemma reaches_created_in_past w0 w :
  reaches strip_tags slugify w0 w -> posts w0 = ∅ -> monotone (clock w0) ->
  created_in_past w /\ clock w = clock w0.
Proof.
  intros Hr Hempty Hmono.
  assert (created_in_past w0) as Hinv.
  { intros k row Hrow. rewrite Hempty, lookup_empty in Hrow. discriminate. }
  clear Hempty. induction Hr as [w|w1 w2 w3 Hstep _ IH]; [auto|].
  destruct (step_created_in_past _ _ Hstep Hmono Hinv) as (Hi & Hc).
  destruct IH as (Hi3 & Hc3); [rewrite Hc; exact Hmono | exact Hi |].
  split; [exact Hi3 | congruence].
Qed.

(** C2 (amended).  A save with status "published" and [published_at] unset
    stamps [published_at] with the reading of the clock at that save.  When
    the row of the post is already stored, by the earlier saves of a history
    that began with no posts, [created_at] stays and
    [created_at <= published_at]; when the same save adds the row, with or
    without a key given, [created_at] is read from the clock after
    [published_at], so [published_at <= created_at].  A save never changes
    and never clears a [published_at] that is set, and a save with another
    status leaves [published_at] as it is; when every column is saved the
    stored row is the instance. *)
Theorem C2_published_at_stamped_once
    (uf : option (list Field)) (self : Post) (w : World) (self' : Post) (w' : World) :
  Post_save strip_tags slugify uf self w = (Ok self', w') ->
  (status self = "published" -> published_at self = None ->
     published_at self' = Some (clock w (reads w))
     /\ (forall w0 k row,
           posts w0 = ∅ -> monotone (clock w0) -> reaches strip_tags slugify w0 w ->
           post_id self = Some k -> posts w !! k = Some row ->
           created_at self = created_at row ->
           exists c t, created_at row = Some c /\ created_at self' = Some c
                       /\ published_at self' = Some t /\ c <= t)
     /\ (uf = None -> monotone (clock w) ->
         (forall k, post_id self = Some k -> posts w !! k = None) ->
           exists t c, published_at self' = Some t /\ created_at self' = Some c /\ t <= c))
  /\ (forall t, published_at self = Some t -> published_at self' = Some t)
  /\ (status self <> "published" -> published_at self' = published_at self)
  /\ (uf = None -> exists k, post_id self' = Some k /\ posts w' !! k = Some self').
Proof.
  intros H. rewrite Post_save_eq in H.
  pose proof (Model_save_frame _ _ _ _ _ H) as (_ & _ & _ & _ & _ & _ & _ & Hpa & _).
  rewrite derive_fields_published_at in Hpa.
  pose proof (derive_fields_frame strip_tags slugify (clock w (reads w)) self) as F.
  simpl in F. destruct F as (Fid & _ & _ & _ & _ & _ & _ & _ & Fca & _).
  split; [|split; [|split]].
  - intros Hs Hn.
    assert (publishes self = true) as Hp by (apply publishes_true; auto).
    rewrite Hp in Hpa, H. split; [exact Hpa|]. split.
    + intros w0 k row Hempty Hmono Hreach Hid Hrow Hcar.
      destruct (reaches_created_in_past _ _ Hreach Hempty Hmono) as (Hinv & _).
      destruct (Hinv k row Hrow) as (c & Hc & Hle).
      destruct (Model_save_keeps_created_at _ _ _ _ _ k H) as [Hca _].
      * congruence.
      * exists row. exact Hrow.
      * exists c, (clock w (reads w)). split; [exact Hc|].
        split; [congruence|]. split; [exact Hpa | exact Hle].
    + intros -> Hmono Hnone.
      destruct (Model_save_insert_stamps _ _ _ _ H) as (i & Hi & Hca).
      * intros k Hk. rewrite Fid in Hk. exact (Hnone k Hk).
      * simpl in Hi, Hca. eexists _, _. split; [exact Hpa|]. split; [exact Hca|].
        apply Hmono. lia.
  - intros t Ht. rewrite Hpa. unfold publishes. rewrite Ht.
    rewrite andb_false_r. reflexivity.
  - intros Hs. rewrite Hpa. unfold publishes.
    destruct (String.eqb_spec (status self) "published"); [contradiction | reflexivity].
  - intros ->. apply Model_save_full_stored in H. exact H.
Qed.

End Reaches.

(** The stored draft is published by a later save: [created_at] is the 1000
    of its first save, [published_at] the 1002 the clock reads now.  A post
    saved as published under the key 5, with no such row stored, is stamped
    with 1000 and then created at 1002. *)
Lemma C2_published_at_stamped_once_witness :
  (exists self' w',
     Post_save Sample.plain Sample.ascii_slugify None
       (set_status "published" Sample.stored_draft) Sample.draft_world = (Ok self', w')
     /\ published_at self' = Some 1002
     /\ exists c t, created_at Sample.stored_draft = Some c /\ created_at self' = Some c
                    /\ published_at self' = Some t /\ c <= t)
  /\ (exists self' w',
        Post_save Sample.plain Sample.ascii_slugify None
          (set_post_id (Some 5) Sample.new_published) Sample.empty_world = (Ok self', w')
        /\ published_at self' = Some 1000 /\ created_at self' = Some 1002
        /\ exists t c, published_at self' = Some t /\ created_at self' = Some c /\ t <= c).
Proof.
  split.
  - eexists _, _. split; [vm_compute; reflexivity|].
    edestruct (C2_published_at_stamped_once Sample.plain Sample.ascii_slugify None
                 (set_status "published" Sample.stored_draft) Sample.draft_world)
      as (Hstamp & _); [vm_compute; reflexivity|].
    destruct Hstamp as (Hpa & Hstored & _); [reflexivity | reflexivity |].
    split; [exact Hpa|].
    apply (Hstored Sample.empty_world 1 Sample.stored_draft).
    + reflexivity.
    + exact ticking_monotone.
    + apply rtc_once. eapply step_save; [|exact draft_world_reached].
      intros k row Hk. discriminate Hk.
    + reflexivity.
    + reflexivity.
    + reflexivity.
  - eexists _, _. split; [vm_compute; reflexivity|].
    split; [reflexivity|]. split; [reflexivity|].
    edestruct (C2_published_at_stamped_once Sample.plain Sample.ascii_slugify None
                 (set_post_id (Some 5) Sample.new_published) Sample.empty_world)
      as (Hstamp & _); [vm_compute; reflexivity|].
    destruct Hstamp as (_ & _ & Hadds); [reflexivity | reflexivity |].
    apply Hadds; [reflexivity | exact ticking_monotone |].
    intros k Hk. reflexivity.
Defined.

(** * Further properties of the code *)

(** ** Texts and words *)

Lemma append_cons (c : ascii) (a b : string) : String c a +:+ b = String c (a +:+ b).
Proof. reflexivity. Qed.

Lemma append_nil_r (s : string) : s +:+ "" = s.
Proof. induction s as [|c s IH]; [reflexivity|]. rewrite append_cons, IH. reflexivity. Qed.

Lemma append_assoc (a b c : string) : (a +:+ b) +:+ c = a +:+ (b +:+ c).
Proof.
  induction a as [|x a IH]; [reflexivity|]. rewrite !append_cons, IH. reflexivity.
Qed.

Lemma append_length (a b : string) :
  String.length (a +:+ b) = (String.length a + String.length b)%nat.
Proof.
  induction a as [|x a IH]; [reflexivity|]. rewrite append_cons. cbn. rewrite IH. reflexivity.
Qed.

Lemma append_empty (a b : string) : a +:+ b = "" -> a = "" /\ b = "".
Proof. destruct a; [auto | discriminate]. Qed.

Lemma no_space_append (a b : string) :
  no_space (a +:+ b) = no_space a && no_space b.
Proof.
  induction a as [|x a IH]; [reflexivity|]. rewrite append_cons. cbn.
  rewrite IH. destruct (Py.isspace x); reflexivity.
Qed.

(** Reading a run of non-space characters extends the word being read. *)
Lemma split_from_word (w cur s : string) :
  no_space w = true ->
  Py.split_from cur (w +:+ s) = Py.split_from (cur +:+ w) s.
Proof.
  revert cur. induction w as [|c w IH]; intros cur Hw.
  - rewrite append_nil_r. reflexivity.
  - cbn in Hw. apply andb_true_iff in Hw as [Hc Hw].
    apply negb_true_iff in Hc. rewrite append_cons. cbn. rewrite Hc.
    rewrite (IH _ Hw), append_assoc. reflexivity.
Qed.

(** Every item [split] returns is a word. *)
Lemma split_from_words (s cur : string) :
  no_space cur = true -> Forall is_word (Py.split_from cur s).
Proof.
  revert cur. induction s as [|c s IH]; intros cur Hcur; cbn.
  - case_decide; [constructor|]. repeat constructor; assumption.
  - destruct (Py.isspace c) eqn:Hc.
    + case_decide.
      * apply IH. reflexivity.
      * constructor; [split; assumption|]. apply IH. reflexivity.
    + apply IH. rewrite no_space_append, Hcur. cbn. rewrite Hc. reflexivity.
Qed.

Lemma split_words_are_words (s : string) : Forall is_word (Py.split s).
Proof. apply split_from_words. reflexivity. Qed.

(** Joining words with spaces and splitting again gives the words back. *)
Lemma split_join_words (ws : list string) :
  Forall is_word ws -> Py.split (join_words ws) = ws.
Proof.
  unfold Py.split, join_words. induction ws as [|w ws IH]; intros Hws; [reflexivity|].
  apply Forall_cons in Hws as [[Hne Hw] Hws]. specialize (IH Hws).
  destruct ws as [|w' ws].
  - change (String.concat " " [w]) with w.
    rewrite <- (append_nil_r w) at 1. rewrite (split_from_word w "" "" Hw).
    change ("" +:+ w) with w. cbn. case_decide; [contradiction | reflexivity].
  - change (String.concat " " (w :: w' :: ws))
      with (w +:+ String " "%char (String.concat " " (w' :: ws))).
    rewrite (split_from_word w "" _ Hw).
    change ("" +:+ w) with w. cbn.
    case_decide; [contradiction|]. f_equal. exact IH.
Qed.

Lemma join_words_snoc_append (ws : list string) (w suffix : string) :
  join_words (ws ++ [w]) +:+ suffix = join_words (ws ++ [w +:+ suffix]).
Proof.
  unfold join_words. induction ws as [|x ws IH]; [reflexivity|].
  destruct ws as [|y ws].
  - change (String.concat " " ([x] ++ [w])) with (x +:+ (" " +:+ w)).
    change (String.concat " " ([x] ++ [w +:+ suffix])) with (x +:+ (" " +:+ (w +:+ suffix))).
    rewrite !append_assoc. reflexivity.
  - change (String.concat " " ((x :: y :: ws) ++ [w]))
      with (x +:+ (" " +:+ String.concat " " ((y :: ws) ++ [w]))).
    change (String.concat " " ((x :: y :: ws) ++ [w +:+ suffix]))
      with (x +:+ (" " +:+ String.concat " " ((y :: ws) ++ [w +:+ suffix]))).
    rewrite !append_assoc. f_equal. f_equal. exact IH.
Qed.

(** ** [truncate_words_custom] *)

Lemma is_word_append (w suffix : string) :
  is_word w -> no_space suffix = true -> is_word (w +:+ suffix).
Proof.
  intros [Hne Hw] Hs. split.
  - intros H. apply append_empty in H as [H _]. contradiction.
  - rewrite no_space_append, Hw, Hs. reflexivity.
Qed.

(** X1.  [truncate_words_custom] leaves a text of at most [n] words exactly
    as it is; it cuts a longer one to its first [n] words, single spaces
    between them and three dots glued to the last, so the result again has
    [n] words (and is the bare "..." for [n = 0]); applied twice with the
    same [n >= 0] it gives what it gives once; and a value that is no text,
    or an argument that is no number, comes back unchanged. *)
Theorem truncate_words_custom_cuts_to_n_words :
  (forall s n, Z.of_nat (List.length (Py.split s)) <= n ->
     truncate_words_custom (VStr s) (VInt n) = VStr s)
  /\ (forall s n, 0 < n < Z.of_nat (List.length (Py.split s)) ->
        exists first last r,
          take (Z.to_nat n) (Py.split s) = first ++ [last]
          /\ truncate_words_custom (VStr s) (VInt n) = VStr r
          /\ r = join_words first +:+ (if decide (first = []) then "" else " ")
                   +:+ last +:+ "..."
          /\ Py.split r = first ++ [last +:+ "..."]
          /\ List.length (Py.split r) = Z.to_nat n)
  /\ (forall s, Py.split s <> [] ->
        truncate_words_custom (VStr s) (VInt 0) = VStr "...")
  /\ (forall s n, 0 <= n ->
        truncate_words_custom (truncate_words_custom (VStr s) (VInt n)) (VInt n)
        = truncate_words_custom (VStr s) (VInt n))
  /\ (forall n arg, truncate_words_custom (VInt n) arg = VInt n)
  /\ (forall arg, truncate_words_custom VNone arg = VNone)
  /\ (forall s, truncate_words_custom (VStr s) VNone = VStr s
                /\ forall a, truncate_words_custom (VStr s) (VStr a) = VStr s).
Proof.
  assert (forall s n, Z.of_nat (List.length (Py.split s)) <= n ->
            truncate_words_custom (VStr s) (VInt n) = VStr s) as Hshort.
  { intros s n Hn. unfold truncate_words_custom.
    destruct (Z.ltb_spec n (Z.of_nat (List.length (Py.split s)))); [lia | reflexivity]. }
  assert (forall s n, 0 < n < Z.of_nat (List.length (Py.split s)) ->
            exists first last r,
              take (Z.to_nat n) (Py.split s) = first ++ [last]
              /\ truncate_words_custom (VStr s) (VInt n) = VStr r
              /\ r = join_words first +:+ (if decide (first = []) then "" else " ")
                       +:+ last +:+ "..."
              /\ Py.split r = first ++ [last +:+ "..."]
              /\ List.length (Py.split r) = Z.to_nat n) as Hcut.
  { intros s n [Hpos Hlt].
    pose proof (split_words_are_words s) as Hws.
    set (ws := Py.split s) in *.
    destruct (Z.to_nat n) as [|m] eqn:Hm; [lia|].
    destruct (ws !! m) as [last|] eqn:Hlast.
    2:{ apply lookup_ge_None in Hlast. lia. }
    exists (take m ws), last, (join_words (take m ws ++ [last]) +:+ "...").
    assert (take (S m) ws = take m ws ++ [last]) as Htake by (apply take_S_r; exact Hlast).
    assert (Forall is_word (take m ws ++ [last +:+ "..."])) as Hwords.
    { apply Forall_app. split; [apply Forall_take; exact Hws|].
      constructor; [|constructor]. apply is_word_append; [|reflexivity].
      rewrite Forall_forall in Hws. apply Hws. apply list_elem_of_lookup. eauto. }
    split; [exact Htake|]. split.
    { unfold truncate_words_custom. fold ws.
      destruct (Z.ltb_spec n (Z.of_nat (List.length ws))); [|lia].
      unfold py_slice_to. destruct (Z.leb_spec 0 n); [|lia].
      rewrite Hm, Htake. reflexivity. }
    split.
    { unfold join_words. destruct (take m ws) as [|x l] eqn:Ht.
      - reflexivity.
      - rewrite join_words_snoc_append. unfold join_words.
        case_decide; [discriminate|].
        clear. revert x. induction l as [|y l IH]; intros x.
        + change (String.concat " " ([x] ++ [last +:+ "..."]))
            with (x +:+ (" " +:+ (last +:+ "..."))).
          change (String.concat " " [x]) with x. reflexivity.
        + change (String.concat " " ((x :: y :: l) ++ [last +:+ "..."]))
            with (x +:+ (" " +:+ String.concat " " ((y :: l) ++ [last +:+ "..."]))).
          change (String.concat " " (x :: y :: l))
            with (x +:+ (" " +:+ String.concat " " (y :: l))).
          rewrite IH, !append_assoc. reflexivity. }
    rewrite join_words_snoc_append, (split_join_words _ Hwords).
    split; [reflexivity|].
    rewrite length_app, length_take. simpl.
    apply lookup_lt_Some in Hlast. lia. }
  assert (forall s, Py.split s <> [] ->
            truncate_words_custom (VStr s) (VInt 0) = VStr "...") as Hzero.
  { intros s Hne. unfold truncate_words_custom.
    destruct (Py.split s) as [|w ws]; [contradiction|]. reflexivity. }
  split; [exact Hshort|]. split; [exact Hcut|]. split; [exact Hzero|].
  split; [|split; [|split]].
  - intros s n Hn.
    destruct (Z.ltb_spec n (Z.of_nat (List.length (Py.split s)))) as [Hlt|Hge].
    + destruct (Z.eq_dec n 0) as [->|Hn0].
      * rewrite Hzero; [reflexivity|].
        intros E. rewrite E in Hlt. simpl in Hlt. lia.
      * destruct (Hcut s n ltac:(lia)) as (first & last & r & _ & -> & _ & _ & Hlen).
        apply Hshort. lia.
    + rewrite (Hshort s n Hge). apply Hshort. exact Hge.
  - reflexivity.
  - reflexivity.
  - intros s. split; reflexivity.
Qed.

(** ** [reading_time_minutes] *)



(** ** [content_preview] *)

(** X3.  The admin's comment preview is the content itself when that has at
    most 50 characters, and otherwise its first 50 characters followed by
    three dots: it is never longer than 53 characters, and it always starts
    with the first [min 50 (len content)] characters of the content. *)
Theorem content_preview_is_a_bounded_prefix (text : string) :
  (Py.len text <= 50 -> content_preview text = text)
  /\ (50 < Py.len text ->
        content_preview text = Py.slice_to 50 text +:+ "..."
        /\ String.length (content_preview text) = 53%nat)
  /\ (String.length (content_preview text) <= 53)%nat
  /\ (exists rest, content_preview text = Py.slice_to 50 text +:+ rest)
  /\ (exists rest, text = Py.slice_to 50 text +:+ rest
                   /\ String.length (Py.slice_to 50 text) = Nat.min 50 (String.length text)).
Proof.
  unfold content_preview, Py.len.
  destruct (slice_to_prefix 50 text) as (rest & Hrest & Hlen).
  destruct (Z.ltb_spec 50 (Z.of_nat (String.length text))) as [Hlong|Hshort].
  - split; [lia|]. split.
    + intros _. split; [reflexivity|]. rewrite append_length, Hlen.
      change (String.length "...") with 3%nat. lia.
    + split; [rewrite append_length, Hlen; change (String.length "...") with 3%nat; lia|].
      split; [exists "..."; reflexivity|]. exists rest. split; assumption.
  - split; [reflexivity|]. split; [lia|]. split; [lia|].
    split; [exists rest; exact Hrest|]. exists rest. split; assumption.
Qed.

(** ** [Post.save] and the post table *)

Lemma write_fields_slug (fs : list Field) (self row : Post) :
  F_slug ∉ fs -> slug (write_fields fs self row) = slug row.
Proof.
  induction fs as [|f fs IH]; intros Hnot; [reflexivity|].
  apply not_elem_of_cons in Hnot as [Hf Hfs]. simpl.
  rewrite <- (IH Hfs). destruct f; try reflexivity. contradiction.
Qed.

Lemma do_update_wf k fs self row w o w' :
  do_update k fs self row w = (o, w') ->
  posts w !! k = Some row -> posts_wf (posts w) -> posts_wf (posts w').
Proof.
  unfold do_update, bind, get_world, put_posts, raise. intros H Hrow [Hid Huniq].
  case_decide as Hd; simplify_eq; [|split; assumption].
  destruct Hd as [Hok Hslug]. simpl.
  set (row' := set_post_id (Some k) (write_fields fs self row)) in *.
  assert (forall k2 r2, k2 <> k -> posts w !! k2 = Some r2 -> slug row' <> slug r2) as Hfree.
  { intros k2 r2 Hne H2 Heq. destruct (decide (F_slug ∈ fs)) as [Hin|Hnin].
    - destruct (Hslug Hin k2 r2 H2) as [?|Hs]; [contradiction|]. congruence.
    - apply Hne. apply (Huniq k2 r2 k row H2 Hrow).
      rewrite <- Heq. unfold row'.
      transitivity (slug (write_fields fs self row)); [reflexivity|].
      apply write_fields_slug. exact Hnin. }
  split.
  - intros k1 r1 H1. apply lookup_insert_Some in H1 as [[<- <-]|[Hne H1]].
    + split; [reflexivity | exact Hok].
    + apply Hid. exact H1.
  - intros k1 r1 k2 r2 H1 H2 Hs.
    apply lookup_insert_Some in H1 as [[<- <-]|[Hne1 H1]];
      apply lookup_insert_Some in H2 as [[<- <-]|[Hne2 H2]].
    + reflexivity.
    + exfalso. apply (Hfree k2 r2); [congruence | exact H2 | exact Hs].
    + exfalso. apply (Hfree k1 r1); [congruence | exact H1 | symmetry; exact Hs].
    + apply (Huniq k1 r1 k2 r2); assumption.
Qed.

Lemma do_insert_wf k self w o w' :
  do_insert k self w = (o, w') -> posts_wf (posts w) -> posts_wf (posts w').
Proof.
  unfold do_insert, bind, get_world, put_posts, raise. intros H [Hid Huniq].
  case_decide as Hd; simplify_eq; [|split; assumption].
  destruct Hd as (Hfresh & Hok & Hslug). simpl. split.
  - intros k1 r1 H1. apply lookup_insert_Some in H1 as [[<- <-]|[Hne H1]].
    + split; [reflexivity|]. destruct self; exact Hok.
    + apply Hid. exact H1.
  - intros k1 r1 k2 r2 H1 H2 Hs.
    apply lookup_insert_Some in H1 as [[<- <-]|[Hne1 H1]];
      apply lookup_insert_Some in H2 as [[<- <-]|[Hne2 H2]].
    + reflexivity.
    + exfalso. destruct (Hslug k2 r2 H2) as [?|Hn]; [congruence|].
      apply Hn. symmetry. exact Hs.
    + exfalso. destruct (Hslug k1 r1 H1) as [?|Hn]; [congruence|].
      apply Hn. exact Hs.
    + apply (Huniq k1 r1 k2 r2); assumption.
Qed.

Lemma insert_new_wf k self w o w' :
  insert_new k self w = (o, w') -> posts_wf (posts w) -> posts_wf (posts w').
Proof.
  intros H Hwf. rewrite insert_new_run in H. cbv zeta in H.
  destruct k as [k|]; apply bind_ret_inv in H as (o1 & H & _);
    exact (do_insert_wf _ _ _ _ _ H Hwf).
Qed.

Lemma Model_save_wf uf self w o w' :
  Model_save uf self w = (o, w') -> posts_wf (posts w) -> posts_wf (posts w').
Proof.
  intros H Hwf. unfold Model_save in H. destruct uf as [[|f fs]|].
  - unfold ret in H. injection H as <- <-. exact Hwf.
  - destruct (post_id self) as [k|] eqn:Hid.
    2:{ unfold raise in H. injection H as <- <-. exact Hwf. }
    apply bind_inv in H as [(s1 & w1 & H1 & H2)|(e & H1 & ->)].
    + rewrite bind_get_world in H2.
      assert (posts w1 = posts w) as Hp.
      { destruct (decide (F_updated_at ∈ f :: fs)).
        - rewrite pre_save_updated_at_run in H1. injection H1 as <- <-. reflexivity.
        - unfold ret in H1. injection H1 as <- <-. reflexivity. }
      rewrite <- Hp in Hwf. clear H1 Hp.
      destruct (posts w1 !! k) as [row|] eqn:Hrow.
      * apply bind_ret_inv in H2 as (o1 & H2 & _).
        exact (do_update_wf _ _ _ _ _ _ _ H2 Hrow Hwf).
      * unfold raise in H2. injection H2 as <- <-. exact Hwf.
    + destruct (decide (F_updated_at ∈ f :: fs)).
      * rewrite pre_save_updated_at_run in H1. discriminate.
      * unfold ret in H1. discriminate.
  - destruct (post_id self) as [k|] eqn:Hid.
    2:{ exact (insert_new_wf _ _ _ _ _ H Hwf). }
    apply bind_inv in H as [(s1 & w1 & H1 & H2)|(e & H1 & ->)].
    2:{ rewrite pre_save_updated_at_run in H1. discriminate. }
    rewrite pre_save_updated_at_run in H1. injection H1 as <- <-.
    rewrite bind_get_world in H2.
    destruct (posts (with_reads (S (reads w)) w) !! k) as [row|] eqn:Hrow.
    + apply bind_ret_inv in H2 as (o1 & H2 & _).
      exact (do_update_wf _ _ _ _ _ _ _ H2 Hrow Hwf).
    + exact (insert_new_wf _ _ _ _ _ H2 Hwf).
Qed.

Section SaveInvariant.

Variable strip_tags : string -> string.
Variable slugify : string -> string.

(** X4.  [Post.save] keeps the post table well formed, whatever it is asked
    to save and whether it returns or raises: afterwards every row still
    carries its key and meets the column constraints, and no two posts
    share a slug.  The same holds of [increment_view_count]. *)
Theorem Post_save_keeps_slugs_unique
    (uf : option (list Field)) (self : Post) (w : World) (o : Outcome Post) (w' : World) :
  posts_wf (posts w) ->
  (Post_save strip_tags slugify uf self w = (o, w') -> posts_wf (posts w'))
  /\ (increment_view_count strip_tags slugify self w = (o, w') -> posts_wf (posts w')).
Proof.
  intros Hwf. split; intros H.
  - rewrite Post_save_eq in H. apply (Model_save_wf _ _ _ _ _ H).
    destruct (publishes self); exact Hwf.
  - unfold increment_view_count in H. rewrite Post_save_eq in H.
    apply (Model_save_wf _ _ _ _ _ H).
    destruct (publishes _); exact Hwf.
Qed.

End SaveInvariant.

Lemma singleton_posts_wf (k : Z) (row : Post) :
  post_id row = Some k -> row_ok row -> posts_wf ({[ k := row ]} : gmap Z Post).
Proof.
  intros Hid Hok. split.
  - intros k1 r1 H1. apply lookup_singleton_Some in H1 as [<- <-]. split; assumption.
  - intros k1 r1 k2 r2 H1 H2 _.
    apply lookup_singleton_Some in H1 as [<- _].
    apply lookup_singleton_Some in H2 as [<- _]. reflexivity.
Qed.

Lemma draft_world_wf : posts_wf (posts Sample.draft_world).
Proof.
  apply singleton_posts_wf; [reflexivity|].
  unfold row_ok. simpl. repeat split; eauto; lia.
Qed.

(** Publishing the stored draft leaves the one-row table well formed. *)
Lemma Post_save_keeps_slugs_unique_witness :
  posts_wf (posts Sample.draft_world)
  /\ posts_wf (posts (Post_save Sample.plain Sample.ascii_slugify None
                        (set_status "published" Sample.stored_draft) Sample.draft_world).2).
Proof.
  split; [exact draft_world_wf|].
  apply (proj1 (Post_save_keeps_slugs_unique Sample.plain Sample.ascii_slugify None
                  (set_status "published" Sample.stored_draft) Sample.draft_world
                  (Post_save Sample.plain Sample.ascii_slugify None
                     (set_status "published" Sample.stored_draft) Sample.draft_world).1
                  (Post_save Sample.plain Sample.ascii_slugify None
                     (set_status "published" Sample.stored_draft) Sample.draft_world).2
                  draft_world_wf)).
  apply surjective_pairing.
Defined.

Section SaveEdges.

Variable strip_tags : string -> string.
Variable slugify : string -> string.

(** The slug an instance is saved with. *)
Lemma saved_slug (t : Z) (self : Post) :
  slug (derive_fields strip_tags slugify t self)
  = if Py.truthy (slug self) then slug self else slugify (title self).
Proof. apply derive_fields_slug. Qed.

(** X5.  A save that would add a post under a slug another post already
    holds (the slug the instance carries, or the one derived from its title
    when it carries none) raises [IntegrityError] and leaves every table as
    it was. *)
Theorem Post_save_slug_collision_raises
    (self : Post) (w : World) (k' : Z) (row' : Post) :
  post_id self = None ->
  posts w !! k' = Some row' ->
  slug row' = (if Py.truthy (slug self) then slug self else slugify (title self)) ->
  exists w',
    Post_save strip_tags slugify None self w = (Raise IntegrityError, w')
    /\ posts w' = posts w /\ comments w' = comments w /\ likes w' = likes w.
Proof.
  intros Hid Hrow Hslug. rewrite Post_save_eq.
  pose proof (derive_fields_frame strip_tags slugify (clock w (reads w)) self) as F.
  simpl in F. destruct F as (Fid & _).
  pose proof (saved_slug (clock w (reads w)) self) as Fs.
  set (p := derive_fields strip_tags slugify (clock w (reads w)) self) in *.
  set (w1 := if publishes self then with_reads (S (reads w)) w else w).
  assert (posts w1 = posts w) as Hp by (unfold w1; destruct (publishes self); reflexivity).
  assert (comments w1 = comments w) as Hc by (unfold w1; destruct (publishes self); reflexivity).
  assert (likes w1 = likes w) as Hl by (unfold w1; destruct (publishes self); reflexivity).
  unfold Model_save. rewrite Fid, Hid.
  unfold insert_new, pre_save_created_at, pre_save_updated_at, next_post_id, bind, now, ret.
  simpl. unfold do_insert, bind, get_world, put_posts, raise. simpl.
  case_decide as Hd.
  - exfalso. destruct Hd as (Hfresh & _ & Hfree).
    rewrite Hp in Hfresh, Hfree.
    destruct (Hfree k' row' Hrow) as [->|Hn].
    + rewrite Hrow in Hfresh. discriminate.
    + apply Hn. rewrite Hslug. symmetry.
      transitivity (slug p); [|exact Fs]. destruct p; reflexivity.
  - eexists. split; [reflexivity|]. simpl. auto.
Qed.

(** X6.  A slug, once set, is never changed by a save: an instance that
    carries a slug keeps it whatever happens to its title, and an instance
    without one gets [slugify(title)].  With every column saved, the stored
    row holds that slug. *)
Theorem Post_save_slug_is_stable
    (uf : option (list Field)) (self : Post) (w : World) (p : Post) (w' : World) :
  Post_save strip_tags slugify uf self w = (Ok p, w') ->
  (slug self <> EmptyString -> slug p = slug self)
  /\ (slug self = EmptyString -> slug p = slugify (title self))
  /\ (forall new_title, slug self <> EmptyString ->
        forall q w2,
          Post_save strip_tags slugify uf
            (mkPost (post_id self) new_title (slug self) (author self) (content self)
               (excerpt self) (featured_image self) (status self) (published_at self)
               (view_count self) (reading_time self) (is_featured self)
               (created_at self) (updated_at self)) w = (Ok q, w2) ->
          slug q = slug self)
  /\ (uf = None -> exists k row, post_id p = Some k /\ posts w' !! k = Some row
                                 /\ slug row = slug p).
Proof.
  assert (forall self0 p0 w0, Post_save strip_tags slugify uf self0 w = (Ok p0, w0) ->
            slug p0 = if Py.truthy (slug self0) then slug self0
                      else slugify (title self0)) as Hgen.
  { intros self0 p0 w0 H. rewrite Post_save_eq in H.
    apply Model_save_frame in H as (_ & Hs & _). rewrite Hs. apply saved_slug. }
  intros H. split; [|split; [|split]].
  - intros Hne. rewrite (Hgen _ _ _ H). apply truthy_true in Hne. rewrite Hne. reflexivity.
  - intros He. rewrite (Hgen _ _ _ H). apply truthy_false in He. rewrite He. reflexivity.
  - intros new_title Hne q w2 Hq. rewrite (Hgen _ _ _ Hq). simpl.
    apply truthy_true in Hne. rewrite Hne. reflexivity.
  - intros ->. rewrite Post_save_eq in H. apply Model_save_full_stored in H.
    destruct H as (k & Hk & Hrow). exists k, p. auto.
Qed.

End SaveEdges.

Lemma Post_save_slug_collision_raises_witness :
  exists w',
    Post_save Sample.plain Sample.ascii_slugify None Sample.new_published Sample.draft_world
      = (Raise IntegrityError, w')
    /\ posts w' = posts Sample.draft_world.
Proof.
  destruct (Post_save_slug_collision_raises Sample.plain Sample.ascii_slugify
              Sample.new_published Sample.draft_world 1 Sample.stored_draft)
    as (w' & E & Hp & _); [reflexivity | reflexivity | reflexivity |].
  exists w'. split; assumption.
Defined.

Lemma Post_save_slug_is_stable_witness :
  exists p w',
    Post_save Sample.plain Sample.ascii_slugify None
      (mkPost (Some 1) "A Different Title" "hello-world-today" 7
         "A first post about nothing much, long enough to pass the form."
         "" None "draft" None 0 1 false (Some 1000) (Some 1001))
      Sample.draft_world = (Ok p, w')
    /\ slug p = "hello-world-today".
Proof.
  eexists _, _. split; [vm_compute; reflexivity|].
  edestruct (Post_save_slug_is_stable Sample.plain Sample.ascii_slugify None
               (mkPost (Some 1) "A Different Title" "hello-world-today" 7
                  "A first post about nothing much, long enough to pass the form."
                  "" None "draft" None 0 1 false (Some 1000) (Some 1001))
               Sample.draft_world) as (Hkeep & _); [vm_compute; reflexivity|].
  apply Hkeep. discriminate.
Defined.

(** ** Saving again, and counting views *)

Section SaveAgain.

Variable strip_tags : string -> string.
Variable slugify : string -> string.

Lemma excerpt_of_truthy (text : string) : Py.truthy (excerpt_of strip_tags text) = true.
Proof.
  apply truthy_true. unfold excerpt_of. intros H.
  apply append_empty in H as [_ H]. discriminate.
Qed.

Lemma settled_fixed (t : Z) (p : Post) :
  settled strip_tags slugify p -> derive_fields strip_tags slugify t p = p.
Proof.
  unfold settled, derive_fields, publishes.
  destruct p as [i ti sl au co ex fi st pa vc rt isf ca ua].
  cbn [slug title excerpt content reading_time status published_at].
  intros (Hs & He & Hr & Hp).
  destruct (Py.truthy sl) eqn:Es; destruct (Py.truthy ex) eqn:Ee;
    destruct (Py.truthy co) eqn:Ec;
    try (specialize (He eq_refl); discriminate);
    repeat (unfold set_slug, set_excerpt, set_reading_time, set_published_at;
            cbn [post_id title slug author content excerpt featured_image status
                 published_at view_count reading_time is_featured created_at
                 updated_at negb andb];
            rewrite ?Es, ?Ee, ?Ec, ?Hp);
    try rewrite <- (Hr eq_refl); try rewrite (Hs eq_refl); reflexivity.
Qed.

Lemma derive_fields_settled (t : Z) (self : Post) :
  settled strip_tags slugify (derive_fields strip_tags slugify t self).
Proof.
  pose proof (derive_fields_frame strip_tags slugify t self) as F. simpl in F.
  destruct F as (_ & Ft & _ & Fc & _ & Fst & _).
  unfold settled.
  rewrite derive_fields_slug, derive_fields_excerpt, derive_fields_reading_time, Ft, Fc.
  unfold publishes at 1. rewrite derive_fields_published_at, Fst.
  split; [|split; [|split]].
  - destruct (Py.truthy (slug self)) eqn:Es; [congruence | reflexivity].
  - destruct (Py.truthy (excerpt self)) eqn:Ee; simpl; [congruence|].
    destruct (Py.truthy (content self)) eqn:Ec; [|reflexivity].
    rewrite excerpt_of_truthy. discriminate.
  - intros ->. reflexivity.
  - unfold publishes.
    destruct (String.eqb (status self) "published"); [|reflexivity].
    destruct (published_at self); reflexivity.
Qed.

(** Whether an instance is settled depends on seven of its fields only. *)
Lemma settled_same_fields (p q : Post) :
  title q = title p -> slug q = slug p -> content q = content p ->
  excerpt q = excerpt p -> status q = status p -> published_at q = published_at p ->
  reading_time q = reading_time p ->
  settled strip_tags slugify p -> settled strip_tags slugify q.
Proof.
  unfold settled, publishes. intros -> -> -> -> -> -> ->. exact id.
Qed.

Lemma Post_save_settled uf self w p w' :
  Post_save strip_tags slugify uf self w = (Ok p, w') -> settled strip_tags slugify p.
Proof.
  intros H. rewrite Post_save_eq in H.
  apply Model_save_frame in H
    as (Ht & Hs & _ & Hc & He & _ & Hst & Hpa & _ & Hr & _).
  eapply settled_same_fields; [..|apply (derive_fields_settled (clock w (reads w)) self)];
    assumption.
Qed.

Lemma slug_free_of_wf (t : gmap Z Post) (k : Z) (row : Post) :
  posts_wf t -> t !! k = Some row -> slug_free k (slug row) t.
Proof.
  intros [_ Huniq] Hrow k' row' Hrow'.
  destruct (decide (k' = k)) as [|Hne]; [left; assumption|].
  right. intros Hs. apply Hne. apply (Huniq k' row' k row); assumption.
Qed.

Lemma write_all_fields (self row : Post) :
  set_post_id (post_id self) (write_fields all_fields self row) = self.
Proof. destruct self, row. reflexivity. Qed.

Lemma bind_Ok {A B} (m : M A) (k : A -> M B) (w : World) a w1 :
  m w = (Ok a, w1) -> bind m k w = k a w1.
Proof. intros H. unfold bind. rewrite H. reflexivity. Qed.

(** The [UPDATE] path of a save of every column. *)
Lemma Model_save_update_run self w k row :
  post_id self = Some k -> posts w !! k = Some row ->
  row_ok (set_post_id (Some k)
            (write_fields all_fields (set_updated_at (Some (clock w (reads w))) self) row)) ->
  slug_free k
    (slug (set_post_id (Some k)
             (write_fields all_fields (set_updated_at (Some (clock w (reads w))) self) row)))
    (posts w) ->
  Model_save None self w =
    (Ok (set_updated_at (Some (clock w (reads w))) self),
     with_posts
       (<[k := set_post_id (Some k)
                 (write_fields all_fields
                    (set_updated_at (Some (clock w (reads w))) self) row)]> (posts w))
       (with_reads (S (reads w)) w)).
Proof.
  intros Hid Hrow Hok Hfree. unfold Model_save. rewrite Hid.
  rewrite (bind_Ok _ _ _ _ _ (pre_save_updated_at_run self w)).
  rewrite bind_get_world.
  change (posts (with_reads (S (reads w)) w)) with (posts w). rewrite Hrow.
  erewrite bind_Ok; [reflexivity|].
  unfold do_update. rewrite bind_get_world.
  rewrite decide_True; [reflexivity|].
  split; [exact Hok | intros _; exact Hfree].
Qed.

(** X7.  Saving an instance that a save of every column has just returned
    completes and changes nothing but [updated_at]: the instance and its
    row keep slug, excerpt, reading time, [published_at] and every other
    field, no other row is touched, and the clock is read once. *)
Theorem Post_save_again_changes_only_updated_at
    (self : Post) (w : World) (p : Post) (w1 : World) :
  posts_wf (posts w) ->
  Post_save strip_tags slugify None self w = (Ok p, w1) ->
  exists k w2,
    post_id p = Some k
    /\ Post_save strip_tags slugify None p w1
       = (Ok (set_updated_at (Some (clock w1 (reads w1))) p), w2)
    /\ posts w2 = <[k := set_updated_at (Some (clock w1 (reads w1))) p]> (posts w1)
    /\ posts w1 !! k = Some p
    /\ reads w2 = S (reads w1)
    /\ comments w2 = comments w1 /\ likes w2 = likes w1.
Proof.
  intros Hwf H.
  pose proof (Post_save_settled _ _ _ _ _ H) as Hset.
  assert (posts_wf (posts w1)) as Hwf1.
  { rewrite Post_save_eq in H. apply (Model_save_wf _ _ _ _ _ H).
    destruct (publishes self); exact Hwf. }
  pose proof H as H0. rewrite Post_save_eq in H0.
  apply Model_save_full_stored in H0 as (k & Hk & Hrow).
  assert (set_post_id (Some k)
            (write_fields all_fields (set_updated_at (Some (clock w1 (reads w1))) p) p)
          = set_updated_at (Some (clock w1 (reads w1))) p) as Hw.
  { rewrite <- (write_all_fields (set_updated_at (Some (clock w1 (reads w1))) p) p) at 2.
    f_equal. destruct p; simpl in *. congruence. }
  exists k,
    (with_posts (<[k := set_updated_at (Some (clock w1 (reads w1))) p]> (posts w1))
       (with_reads (S (reads w1)) w1)).
  split; [exact Hk|]. split; [|repeat split; try reflexivity; exact Hrow].
  rewrite Post_save_eq, (settled_fixed _ _ Hset).
  destruct Hset as (_ & _ & _ & Hpub). rewrite Hpub.
  rewrite (Model_save_update_run p w1 k p Hk Hrow); rewrite Hw.
  - reflexivity.
  - destruct Hwf1 as [Hid _]. destruct (Hid k p Hrow) as (_ & Hc & _ & Hv & Hr).
    unfold row_ok. destruct p; simpl in *. eauto.
  - replace (slug (set_updated_at (Some (clock w1 (reads w1))) p)) with (slug p)
      by (destruct p; reflexivity).
    apply slug_free_of_wf; assumption.
Qed.

(** X8.  [increment_view_count] on an instance that was never saved raises
    [ValueError], and on an instance whose row is gone raises
    [DatabaseError]; in both cases no table is changed. *)
Theorem increment_view_count_needs_a_stored_row (self : Post) (w : World) :
  (post_id self = None ->
     exists w', increment_view_count strip_tags slugify self w = (Raise ValueError, w')
                /\ posts w' = posts w /\ comments w' = comments w /\ likes w' = likes w)
  /\ (forall k, post_id self = Some k -> posts w !! k = None ->
        exists w', increment_view_count strip_tags slugify self w = (Raise DatabaseError, w')
                   /\ posts w' = posts w /\ comments w' = comments w /\ likes w' = likes w).
Proof.
  pose proof (derive_fields_frame strip_tags slugify (clock w (reads w))
                (set_view_count (view_count self + 1) self)) as F.
  cbv zeta in F. destruct F as (Fid & _).
  change (post_id (set_view_count (view_count self + 1) self)) with (post_id self) in Fid.
  unfold increment_view_count. rewrite Post_save_eq.
  set (w1 := if publishes (set_view_count (view_count self + 1) self)
             then with_reads (S (reads w)) w else w).
  assert (posts w1 = posts w /\ comments w1 = comments w /\ likes w1 = likes w)
    as (Hp & Hc & Hl) by (unfold w1; destruct (publishes _); auto).
  unfold Model_save. rewrite Fid. split.
  - intros Hid. rewrite Hid. exists w1. split; [reflexivity | auto].
  - intros k Hid Hrow. rewrite Hid.
    rewrite decide_False
      by (intros Hin; apply list_elem_of_singleton in Hin; discriminate).
    erewrite bind_Ok by reflexivity.
    rewrite bind_get_world, Hp, Hrow. exists w1. split; [reflexivity | auto].
Qed.

End SaveAgain.

Lemma empty_posts_wf : posts_wf (posts Sample.empty_world).
Proof.
  split.
  - intros k row H. simpl in H. rewrite lookup_empty in H. discriminate.
  - intros k1 r1 k2 r2 H. simpl in H. rewrite lookup_empty in H. discriminate.
Qed.

Lemma Post_save_again_changes_only_updated_at_witness :
  exists w2,
    Post_save Sample.plain Sample.ascii_slugify None Sample.stored_draft Sample.draft_world
      = (Ok (set_updated_at (Some 1002) Sample.stored_draft), w2)
    /\ posts w2 !! 1 = Some (set_updated_at (Some 1002) Sample.stored_draft).
Proof.
  destruct (Post_save_again_changes_only_updated_at Sample.plain Sample.ascii_slugify
              Sample.new_draft Sample.empty_world Sample.stored_draft Sample.draft_world
              empty_posts_wf draft_world_reached)
    as (k & w2 & Hk & E & Hposts & _).
  exists w2. split; [exact E|].
  simpl in Hk. injection Hk as <-. rewrite Hposts, lookup_insert_eq. reflexivity.
Defined.

(** ** Page views add up *)

Section PageViews.

Variable strip_tags : string -> string.
Variable slugify : string -> string.

Lemma set_view_count_same (row : Post) (k : Z) :
  post_id row = Some k -> set_post_id (Some k) row = row.
Proof. destruct row; simpl. intros ->. reflexivity. Qed.

(** One request of the page of a published post. *)
Lemma PostDetailView_get_published user s k row w :
  slug_names s k row (posts w) -> status row = "published" -> row_ok row ->
  post_id row = Some k ->
  exists ctx w',
    PostDetailView_get strip_tags slugify user s w = (Ok ctx, w')
    /\ posts w' = <[k := set_view_count (view_count row + 1) row]> (posts w)
    /\ comments w' = comments w /\ likes w' = likes w.
Proof.
  intros Hnames Hp Hok Hid. unfold PostDetailView_get, bind.
  rewrite (PostDetailView_get_object_found user s k row w Hnames).
  2:{ destruct user; simpl; rewrite Hp; reflexivity. }
  unfold PostDetailView_get_context_data, bind. simpl. rewrite Hp. simpl.
  rewrite (increment_view_count_run strip_tags slugify _ _ k row);
    [|reflexivity|apply Hnames|exact Hok|simpl; apply Hok].
  unfold get_world, ret. eexists _, _. split; [reflexivity|].
  simpl. destruct row; simpl in *. subst.
  destruct (publishes _); simpl; auto.
Qed.

Lemma slug_names_after_view s k row (t : gmap Z Post) v :
  slug_names s k row t ->
  slug_names s k (set_view_count v row) (<[k := set_view_count v row]> t).
Proof.
  intros (Hrow & Hs & Huniq). split; [apply lookup_insert_eq|].
  split; [destruct row; exact Hs|].
  intros k' row' Hrow' Hs'.
  apply lookup_insert_Some in Hrow' as [[<- _]|[_ Hrow']]; [reflexivity|].
  apply (Huniq k' row'); assumption.
Qed.

(** X9.  Page views add up: [n] requests of the detail page of a published
    post, one after the other and by whatever readers, all complete and
    leave the post's stored view count [n] higher; no other field of the
    post, no other post, no comment and no like is changed. *)
Theorem detail_requests_count_every_view
    (users : list RequestUser) (s : string) (k : Z) (row : Post) (w : World) :
  slug_names s k row (posts w) -> status row = "published" -> row_ok row ->
  post_id row = Some k ->
  exists w',
    detail_requests strip_tags slugify users s w = (Ok tt, w')
    /\ posts w' !! k
       = Some (set_view_count (view_count row + Z.of_nat (List.length users)) row)
    /\ (forall k', k' <> k -> posts w' !! k' = posts w !! k')
    /\ comments w' = comments w /\ likes w' = likes w.
Proof.
  revert row w. induction users as [|user users IH]; intros row w Hnames Hp Hok Hid.
  - exists w. split; [reflexivity|]. split.
    + destruct Hnames as (Hrow & _). rewrite Hrow. f_equal.
      destruct row; unfold set_view_count; simpl. f_equal. lia.
    + auto.
  - destruct (PostDetailView_get_published user s k row w Hnames Hp Hok Hid)
      as (ctx & w1 & E & Hposts & Hc & Hl).
    set (row1 := set_view_count (view_count row + 1) row) in *.
    destruct (IH row1 w1) as (w' & E' & Hk & Hothers & Hc' & Hl').
    + rewrite Hposts. apply slug_names_after_view. exact Hnames.
    + destruct row; exact Hp.
    + destruct Hok as (Ha & Hb & Hv & Hr). unfold row_ok, row1.
      destruct row; simpl in *. repeat split; auto. lia.
    + destruct row; exact Hid.
    + exists w'. split.
      { simpl. unfold bind. rewrite E. exact E'. }
      split.
      { rewrite Hk. f_equal. unfold row1. rewrite length_cons, Nat2Z.inj_succ.
        destruct row; unfold set_view_count; simpl. f_equal. lia. }
      split.
      { intros k' Hne. rewrite (Hothers k' Hne), Hposts. apply lookup_insert_ne. congruence. }
      split; congruence.
Qed.

End PageViews.

Lemma published_world_row_ok : row_ok Sample.stored_published.
Proof. unfold row_ok. simpl. repeat split; eauto; lia. Qed.

Lemma detail_requests_count_every_view_witness :
  exists w',
    detail_requests Sample.plain Sample.ascii_slugify
      [AnonymousUser; AuthUser 8; AuthUser 7] "hello-world-today" Sample.published_world
      = (Ok tt, w')
    /\ posts w' !! 1 = Some (set_view_count 8 Sample.stored_published).
Proof.
  destruct (detail_requests_count_every_view Sample.plain Sample.ascii_slugify
              [AnonymousUser; AuthUser 8; AuthUser 7] "hello-world-today" 1
              Sample.stored_published Sample.published_world published_world_slug
              eq_refl published_world_row_ok eq_refl)
    as (w' & E & Hk & _).
  exists w'. split; [exact E | exact Hk].
Defined.

